(** * concourse-http-api-resource: a shallow embedding of [assets/resource.py]

  The resource renders a parameter tree (template interpolation, then file
  injection) and calls [requests.request] once.  This development embeds

  - [FileReference.parse], [FileReference.resolve_path],
    [FileReference.contents];
  - [HTTPResource._interpolate] and [HTTPResource._inject_file_contents];
  - [HTTPResource.cmd] and [HTTPResource.run];

  together with the parts of the Python runtime they call ([str.format],
  [os.path.join], [os.path.normpath], [os.path.commonpath], [json.dumps],
  [requests.request]), and proves the properties stated for them.

  Python strings are modelled by [string]: a sequence of characters whose
  code is below 256.  Python exceptions are values of [exn]; a computation
  that may raise returns a [result]. *)

From Stdlib Require Import String Ascii List ZArith Lia Bool.
From Stdlib Require Import DecimalString HexadecimalString SpecFloat.
Import ListNotations.
Open Scope string_scope.
Set Warnings "-register-all".

(* ================================================================== *)
(** * Exceptions and results *)

(** The exception classes the embedded code can raise.  Every one of them
  derives from Python's [Exception], so an [except Exception] clause
  catches all of them. *)
Inductive exn : Type :=
| Unparseable (value : string)      (* FileReference.Unparseable(value) *)
| PlainException (msg : string)     (* raise Exception(msg) *)
| KeyError (key : string)
| IndexError (msg : string)
| ValueError (msg : string)
| TypeError (msg : string)
| AttributeError (msg : string)
| UnboundLocalError (var : string)
| OSError (msg : string)
| OtherError (cls msg : string).

Inductive result (A : Type) : Type :=
| Ok (a : A)
| Raise (e : exn).

Arguments Ok {A} a.
Arguments Raise {A} e.

Definition bind {A B} (r : result A) (k : A -> result B) : result B :=
  match r with
  | Ok a => k a
  | Raise e => Raise e
  end.

Notation "x <- e ;; k" := (bind e (fun x => k))
  (at level 61, e at next level, right associativity).

Definition is_ok {A} (r : result A) : bool :=
  match r with Ok _ => true | Raise _ => false end.

(* ================================================================== *)
(** * Python strings *)

Module Str.

(** [value.startswith(prefix)] *)
Fixpoint startswith (value pre : string) {struct pre} : bool :=
  match pre with
  | EmptyString => true
  | String c pre' =>
      match value with
      | EmptyString => false
      | String d value' => Ascii.eqb c d && startswith value' pre'
      end
  end.

(** [value[n:]] *)
Fixpoint drop (n : nat) (s : string) : string :=
  match n, s with
  | O, _ => s
  | S _, EmptyString => EmptyString
  | S n', String _ rest => drop n' rest
  end.

Fixpoint rev_append (s acc : string) : string :=
  match s with
  | EmptyString => acc
  | String c rest => rev_append rest (String c acc)
  end.

Definition rev (s : string) : string := rev_append s EmptyString.

(** [value.endswith(suffix)] *)
Definition endswith (value suf : string) : bool :=
  startswith (rev value) (rev suf).

(** [value.split(sep)] for a one-character separator: the pieces between
    the separators, empty pieces kept. *)
Fixpoint split (sep : ascii) (s : string) : list string :=
  match s with
  | EmptyString => [EmptyString]
  | String c rest =>
      if Ascii.eqb c sep then EmptyString :: split sep rest
      else match split sep rest with
           | piece :: pieces => String c piece :: pieces
           | [] => [String c EmptyString]
           end
  end.

(** [sep.join(pieces)] *)
Fixpoint join (sep : string) (pieces : list string) : string :=
  match pieces with
  | [] => EmptyString
  | [p] => p
  | p :: rest => p ++ sep ++ join sep rest
  end.

(** [sep * n] *)
Fixpoint repeat (sep : string) (n : nat) : string :=
  match n with
  | O => EmptyString
  | S n' => sep ++ repeat sep n'
  end.

(** [c.isspace()] for a character below 256: tab to carriage return, the
    four separators 28..31, space, NEL and the no-break space. *)
Definition isspace (c : ascii) : bool :=
  let n := nat_of_ascii c in
  (((9 <=? n) && (n <=? 13)) || ((28 <=? n) && (n <=? 32))
   || (n =? 133) || (n =? 160))%nat.

Fixpoint lstrip (s : string) : string :=
  match s with
  | EmptyString => EmptyString
  | String c rest => if isspace c then lstrip rest else s
  end.

Definition rstrip (s : string) : string := rev (lstrip (rev s)).

(** [value.strip()] *)
Definition strip (s : string) : string := rstrip (lstrip s).

(** [str(n)] for an integer *)
Definition of_Z (n : Z) : string :=
  DecimalString.NilZero.string_of_int (Z.to_int n).

(** ['%x' % n] *)
Definition hex (n : N) : string :=
  HexadecimalString.NilZero.string_of_uint (N.to_hex_uint n).

(** [s + c] for one character *)
Definition snoc (s : string) (c : ascii) : string := s ++ String c EmptyString.

(** Membership of a character in a string. *)
Fixpoint mem (c : ascii) (s : string) : bool :=
  match s with
  | EmptyString => false
  | String d rest => Ascii.eqb c d || mem c rest
  end.

End Str.

(* ================================================================== *)
(** * Parameter trees: the values [json.loads] produces *)

(** A mapping is an association list in insertion order; a Python [dict]
  never holds a key twice, which [wf] below records.  A [float] is its
  IEEE 754 value, carried with its [repr] (the shortest decimal text that
  reads back as that value), which is not computed here. *)
Inductive Tree : Type :=
| TStr (s : string)
| TList (items : list Tree)
| TDict (entries : list (string * Tree))
| TInt (n : Z)
| TFloat (x : spec_float) (repr : string)
| TBool (b : bool)
| TNone.

Definition Dict : Type := list (string * Tree).

Section TreeInduction.

Variable P : Tree -> Prop.
Hypothesis HStr : forall s, P (TStr s).
Hypothesis HList : forall items, Forall P items -> P (TList items).
Hypothesis HDict :
  forall entries, Forall (fun kv => P (snd kv)) entries -> P (TDict entries).
Hypothesis HInt : forall n, P (TInt n).
Hypothesis HFloat : forall x repr, P (TFloat x repr).
Hypothesis HBool : forall b, P (TBool b).
Hypothesis HNone : P TNone.

Fixpoint Tree_nested_ind (t : Tree) : P t :=
  match t with
  | TStr s => HStr s
  | TList items =>
      HList items
        ((fix go (l : list Tree) : Forall P l :=
            match l with
            | [] => Forall_nil _
            | x :: l' => Forall_cons _ (Tree_nested_ind x) (go l')
            end) items)
  | TDict entries =>
      HDict entries
        ((fix go (l : list (string * Tree))
            : Forall (fun kv => P (snd kv)) l :=
            match l with
            | [] => Forall_nil _
            | kv :: l' => Forall_cons _ (Tree_nested_ind (snd kv)) (go l')
            end) entries)
  | TInt n => HInt n
  | TFloat x repr => HFloat x repr
  | TBool b => HBool b
  | TNone => HNone
  end.

End TreeInduction.

Module PyDict.

(** [d.get(key)] / [key in d] *)
Fixpoint get (key : string) (d : Dict) : option Tree :=
  match d with
  | [] => None
  | (k, v) :: rest => if String.eqb key k then Some v else get key rest
  end.

(** [d.get(key, default)] *)
Definition get_default (key : string) (default : Tree) (d : Dict) : Tree :=
  match get key d with
  | Some v => v
  | None => default
  end.

(** [d[key] = value]: an existing key keeps its place and takes the new
    value, a new key goes last. *)
Fixpoint set (key : string) (value : Tree) (d : Dict) : Dict :=
  match d with
  | [] => [(key, value)]
  | (k, v) :: rest =>
      if String.eqb key k then (k, value) :: rest
      else (k, v) :: set key value rest
  end.

(** [del d[key]] when the key is there *)
Fixpoint remove (key : string) (d : Dict) : Dict :=
  match d with
  | [] => []
  | (k, v) :: rest =>
      if String.eqb key k then remove key rest else (k, v) :: remove key rest
  end.

Definition keys (d : Dict) : list string := map fst d.

End PyDict.

(** Well-formed trees: no mapping holds a key twice. *)
Inductive wf : Tree -> Prop :=
| wf_str s : wf (TStr s)
| wf_list items : Forall wf items -> wf (TList items)
| wf_dict entries :
  NoDup (PyDict.keys entries) ->
  Forall (fun kv => wf (snd kv)) entries ->
  wf (TDict entries)
| wf_int n : wf (TInt n)
| wf_float x repr : wf (TFloat x repr)
| wf_bool b : wf (TBool b)
| wf_none : wf TNone.

(* ================================================================== *)
(** * [os.path] on POSIX *)

Module OsPath.

Definition sep : string := "/".

(** [os.path.join(a, b)]: an absolute [b] replaces [a]; otherwise [b] is
    appended, after a separator unless [a] is empty or ends with one. *)
Definition join (a b : string) : string :=
  if Str.startswith b sep then b
  else if String.eqb a "" || Str.endswith a sep then a ++ b
  else a ++ sep ++ b.

(** One turn of the loop of [normpath] over the components. *)
Definition normpath_step (initial_slashes : nat) (new_comps : list string)
  (comp : string) : list string :=
  if String.eqb comp "" || String.eqb comp "." then new_comps
  else if negb (String.eqb comp "..")
          || (Nat.eqb initial_slashes 0 && Nat.eqb (List.length new_comps) 0)
          || (negb (Nat.eqb (List.length new_comps) 0)
              && String.eqb (last new_comps "") "..")
       then new_comps ++ [comp]
       else removelast new_comps.

(** [os.path.normpath(path)]: empty and [.] components dropped, [..]
    resolved against the component before it, one or two leading slashes
    kept (three or more count as one). *)
Definition normpath (path : string) : string :=
  if String.eqb path "" then "."
  else
    let initial_slashes :=
      if Str.startswith path sep then
        if Str.startswith path "//" && negb (Str.startswith path "///")
        then 2%nat else 1%nat
      else 0%nat in
    let comps := Str.split "/" path in
    let comps := fold_left (normpath_step initial_slashes) comps [] in
    let path := Str.repeat sep initial_slashes ++ Str.join sep comps in
    if String.eqb path "" then "." else path.

(** The order of Python lists of strings. *)
Fixpoint list_compare (a b : list string) : comparison :=
  match a, b with
  | [], [] => Eq
  | [], _ :: _ => Lt
  | _ :: _, [] => Gt
  | x :: a', y :: b' =>
      match String.compare x y with
      | Eq => list_compare a' b'
      | c => c
      end
  end.

(** [min(xs)] and [max(xs)] of a non-empty list [x :: xs]: the first of the
    smallest, the first of the largest. *)
Definition list_min (x : list string) (xs : list (list string)) : list string :=
  fold_left (fun m y => match list_compare y m with Lt => y | _ => m end) xs x.

Definition list_max (x : list string) (xs : list (list string)) : list string :=
  fold_left (fun m y => match list_compare y m with Gt => y | _ => m end) xs x.

(** The loop of [commonpath]:
    [for i, c in enumerate(s1): if c != s2[i]: common = s1[:i]; break]. *)
Fixpoint common_prefix (s1 s2 : list string) : result (list string) :=
  match s1 with
  | [] => Ok []
  | c :: s1' =>
      match s2 with
      | [] => Raise (IndexError "list index out of range")
      | d :: s2' =>
          if String.eqb c d
          then common <- common_prefix s1' s2' ;; Ok (c :: common)
          else Ok []
      end
  end.

Definition isabs (p : string) : bool := Str.startswith p sep.

(** The components [commonpath] compares: the pieces between separators
    that are neither empty nor [.]. *)
Definition components (p : string) : list string :=
  filter (fun c => negb (String.eqb c "") && negb (String.eqb c "."))
    (Str.split "/" p).

(** [os.path.commonpath(paths)] *)
Definition commonpath (paths : list string) : result string :=
  match paths with
  | [] => Raise (ValueError "commonpath() arg is an empty sequence")
  | p :: ps =>
      if negb (forallb (fun q => Bool.eqb (isabs q) (isabs p)) ps)
      then Raise (ValueError "Can't mix absolute and relative paths")
      else
        let s1 := list_min (components p) (map components ps) in
        let s2 := list_max (components p) (map components ps) in
        common <- common_prefix s1 s2 ;;
        Ok ((if isabs p then sep else "") ++ Str.join sep common)
  end.

End OsPath.

(* ================================================================== *)
(** * The filesystem *)

(** What a path names: a directory, a regular file with what reading it as
    text gives (the text, or the error of [open] or [read]), or another
    kind of node. *)
Inductive fs_node : Type :=
| Directory
| RegularFile (data : result string)
| SpecialFile.

(** A filesystem maps a path to the node it names, if any. *)
Definition filesystem : Type := string -> option fs_node.

(** [os.path.exists(path)] *)
Definition path_exists (fs : filesystem) (path : string) : bool :=
  match fs path with
  | Some _ => true
  | None => false
  end.

(** [os.path.isfile(path)] *)
Definition path_isfile (fs : filesystem) (path : string) : bool :=
  match fs path with
  | Some (RegularFile _) => true
  | _ => false
  end.

(** [io.open(path, "r").read()] *)
Definition open_read (fs : filesystem) (path : string) : result string :=
  match fs path with
  | Some (RegularFile data) => data
  | Some Directory => Raise (OSError "Is a directory")
  | Some SpecialFile => Raise (OSError "Cannot read")
  | None => Raise (OSError "No such file or directory")
  end.

(* ================================================================== *)
(** * [FileReference] *)

Record FileReference : Type := mkFileReference {
  path : string;
  strip : bool;
  bound : option string
}.

Module FileRef.

(** [FileReference.parse(value, bounding_path=...)] *)
Definition parse (value : string) (bounding_path : option string)
  : result FileReference :=
  if Str.startswith value "@" then
    Ok (mkFileReference (Str.drop 1 value) false bounding_path)
  else if Str.startswith value "-@" then
    Ok (mkFileReference (Str.drop 2 value) true bounding_path)
  else Raise (Unparseable value).

Section WithFilesystem.

Variable fs : filesystem.
(** [os.getcwd()] *)
Variable cwd : string.

(** [path[0]] *)
Definition first_char (s : string) : result ascii :=
  match s with
  | EmptyString => Raise (IndexError "string index out of range")
  | String c _ => Ok c
  end.

(** The value of [path] after line 89 of [resolve_path]: the reference's
    path without one leading separator, joined onto the bound and
    normalized. *)
Definition joined_path (self : FileReference) (bound : string)
  : result string :=
  c <- first_char self.(path) ;;
  let path := if Ascii.eqb c "/" then Str.drop 1 self.(path) else self.(path) in
  Ok (OsPath.normpath (OsPath.join bound path)).

(** [if bound is None: bound = os.getcwd()] *)
Definition bound_or_cwd (bound : option string) : string :=
  match bound with
  | None => cwd
  | Some b => b
  end.

(** [FileReference.resolve_path(self, bound)] *)
Definition resolve_path (self : FileReference) (bound : option string)
  : result string :=
  let bound := bound_or_cwd bound in
  path <- joined_path self bound ;;
  common <- OsPath.commonpath [path; bound] ;;
  if negb (String.eqb common bound) then
    Raise (PlainException "Can not traverse outside of working directory")
  else if negb (path_exists fs path) || negb (path_isfile fs path) then
    Raise (PlainException ("Path `" ++ path ++ "` not found or is not a file"))
  else Ok path.

(** [FileReference.target_path] *)
Definition target_path (self : FileReference) : result string :=
  resolve_path self self.(bound).

(** [FileReference.contents] *)
Definition contents (self : FileReference) : result string :=
  target <- target_path self ;;
  data <- open_read fs target ;;
  Ok (if negb self.(strip) then data else Str.strip data).

End WithFilesystem.

End FileRef.

(* ================================================================== *)
(** * [HTTPResource._inject_file_contents] *)

Section Inject.

Variable fs : filesystem.
Variable cwd : string.

(** The [str] branch: the [try] block parses the reference, evaluates
    [target_path] for the debug message and returns [contents]; both
    [except] clauses return [data]. *)
Definition inject_str (data : string) (bounding_path : string) : string :=
  match
    (file_ref <- FileRef.parse data (Some bounding_path) ;;
     _ <- FileRef.target_path fs cwd file_ref ;;
     FileRef.contents fs cwd file_ref)
  with
  | Ok text => text
  | Raise (Unparseable _) => data
  | Raise _ => data
  end.

Fixpoint _inject_file_contents (data : Tree) (bounding_path : string) : Tree :=
  match data with
  | TStr s => TStr (inject_str s bounding_path)
  | TList items =>
      TList (map (fun item => _inject_file_contents item bounding_path) items)
  | TDict entries =>
      TDict (map (fun kv => (fst kv, _inject_file_contents (snd kv) bounding_path))
               entries)
  | _ => data
  end.

End Inject.

(* ================================================================== *)
(** * [str.format] with keyword arguments only

    The scanner follows CPython's [Objects/stringlib/unicode_format.h]:
    [MarkupIterator_next] splits the string into literal text and
    replacement fields, [parse_field] reads one field, [output_markup]
    looks the field up, converts it, expands its format specification and
    renders it. *)

Module Format.

(** What [str.format] asks of the objects it renders: the accessors after
    the first name of a field ([getattr], [getitem]), the conversions
    [!r], [!s] and [!a], and [format(obj, spec)]. *)
Class ObjectModel : Type := {
  object : Type;
  of_tree : Tree -> object;
  get_rest : object -> string -> result object;
  py_repr : object -> result object;
  py_str : object -> result object;
  py_ascii : object -> result object;
  py_format : object -> string -> result string
}.

Definition PY_SSIZE_T_MAX : Z := 2 ^ 63 - 1.

(** [Py_UNICODE_TODECIMAL] *)
Definition digit_value (c : ascii) : option Z :=
  let n := nat_of_ascii c in
  if ((48 <=? n) && (n <=? 57))%nat then Some (Z.of_nat n - 48)%Z else None.

Fixpoint get_integer_loop (s : string) (accumulator : Z) : result (option Z) :=
  match s with
  | EmptyString => Ok (Some accumulator)
  | String c rest =>
      match digit_value c with
      | None => Ok None
      | Some digitval =>
          if (accumulator >? (PY_SSIZE_T_MAX - digitval) / 10)%Z
          then Raise (ValueError "Too many decimal digits in format string")
          else get_integer_loop rest (accumulator * 10 + digitval)%Z
      end
  end.

(** [get_integer]: the number a string of decimal digits denotes; [None]
    (the C code's -1) for the empty string and for any other string. *)
Definition get_integer (s : string) : result (option Z) :=
  if String.eqb s "" then Ok None else get_integer_loop s 0%Z.

(** [field_name_split]: the part up to the first ['.'] or ['['], and the
    rest. *)
Fixpoint field_name_split (field_name : string) : string * string :=
  match field_name with
  | EmptyString => (EmptyString, EmptyString)
  | String c rest =>
      if Ascii.eqb c "[" || Ascii.eqb c "." then (EmptyString, field_name)
      else let (first, rest') := field_name_split rest in (String c first, rest')
  end.

(** Where [parse_field] stands in a replacement field. *)
Inductive parse_state : Type :=
| Literal
| FieldName (field_name : string)
| FieldIndex (field_name : string)
| Conversion (field_name : string)
| ConversionEnd (field_name : string) (conversion : ascii)
| FormatSpec (field_name : string) (conversion : ascii)
    (format_spec : string) (count : nat) (needs_expanding : bool).

(** What [MarkupIterator_next] yields: a character of literal text, a
    replacement field (conversion [zero] when there is none), or the
    [ValueError] that ends the iteration. *)
Inductive markup : Type :=
| LiteralText (c : ascii)
| Field (field_name : string) (conversion : ascii) (format_spec : string)
    (needs_expanding : bool)
| SyntaxError (msg : string).

(** [MarkupIterator_next], repeated to the end of [input], one character
    at a time; [parse_field] is the states other than [Literal]. *)
Fixpoint markup_iterator (st : parse_state) (input : string) : list markup :=
  match input with
  | EmptyString =>
      match st with
      | Literal => []
      | FieldName _ | FieldIndex _ =>
          [SyntaxError "expected '}' before end of string"]
      | Conversion _ =>
          [SyntaxError "end of string while looking for conversion specifier"]
      | ConversionEnd _ _ | FormatSpec _ _ _ _ _ =>
          [SyntaxError "unmatched '{' in format spec"]
      end
  | String c rest =>
      match st with
      | Literal =>
          if Ascii.eqb c "{" then
            match rest with
            | EmptyString =>
                [SyntaxError "Single '{' encountered in format string"]
            | String c' rest' =>
                if Ascii.eqb c' "{"
                then LiteralText "{" :: markup_iterator Literal rest'
                else markup_iterator (FieldName EmptyString) rest
            end
          else if Ascii.eqb c "}" then
            match rest with
            | EmptyString =>
                [SyntaxError "Single '}' encountered in format string"]
            | String c' rest' =>
                if Ascii.eqb c' "}"
                then LiteralText "}" :: markup_iterator Literal rest'
                else [SyntaxError "Single '}' encountered in format string"]
            end
          else LiteralText c :: markup_iterator Literal rest
      | FieldName field_name =>
          if Ascii.eqb c "{" then
            [SyntaxError "unexpected '{' in field name"]
          else if Ascii.eqb c "[" then
            markup_iterator (FieldIndex (Str.snoc field_name c)) rest
          else if Ascii.eqb c "}" then
            Field field_name zero EmptyString false
            :: markup_iterator Literal rest
          else if Ascii.eqb c ":" then
            markup_iterator (FormatSpec field_name zero EmptyString 1 false) rest
          else if Ascii.eqb c "!" then
            markup_iterator (Conversion field_name) rest
          else markup_iterator (FieldName (Str.snoc field_name c)) rest
      | FieldIndex field_name =>
          if Ascii.eqb c "]"
          then markup_iterator (FieldName (Str.snoc field_name c)) rest
          else markup_iterator (FieldIndex (Str.snoc field_name c)) rest
      | Conversion field_name =>
          markup_iterator (ConversionEnd field_name c) rest
      | ConversionEnd field_name conversion =>
          if Ascii.eqb c "}" then
            Field field_name conversion EmptyString false
            :: markup_iterator Literal rest
          else if Ascii.eqb c ":" then
            markup_iterator
              (FormatSpec field_name conversion EmptyString 1 false) rest
          else [SyntaxError "expected ':' after conversion specifier"]
      | FormatSpec field_name conversion format_spec count needs_expanding =>
          if Ascii.eqb c "{" then
            markup_iterator
              (FormatSpec field_name conversion (Str.snoc format_spec c)
                 (S count) true) rest
          else if Ascii.eqb c "}" then
            match count with
            | 1%nat =>
                Field field_name conversion format_spec needs_expanding
                :: markup_iterator Literal rest
            | _ =>
                markup_iterator
                  (FormatSpec field_name conversion (Str.snoc format_spec c)
                     (Nat.pred count) needs_expanding) rest
            end
          else
            markup_iterator
              (FormatSpec field_name conversion (Str.snoc format_spec c)
                 count needs_expanding) rest
      end
  end.

Section BuildString.

Context {OM : ObjectModel}.

(** The keyword arguments; the positional arguments are the empty tuple. *)
Variable kwargs : Dict.

(** [get_field_object] *)
Definition get_field_object (field_name : string) : result object :=
  let (first, rest) := field_name_split field_name in
  index <- get_integer first ;;
  match (if String.eqb first "" then Some 0%Z else index) with
  | Some i =>
      Raise (IndexError ("Replacement index " ++ Str.of_Z i
                         ++ " out of range for positional args tuple"))
  | None =>
      match PyDict.get first kwargs with
      | None => Raise (KeyError first)
      | Some value => get_rest (of_tree value) rest
      end
  end.

(** [do_conversion] *)
Definition do_conversion (obj : object) (conversion : ascii) : result object :=
  if Ascii.eqb conversion "r" then py_repr obj
  else if Ascii.eqb conversion "s" then py_str obj
  else if Ascii.eqb conversion "a" then py_ascii obj
  else
    let n := nat_of_ascii conversion in
    if ((32 <? n) && (n <? 127))%nat
    then Raise (ValueError ("Unknown conversion specifier "
                            ++ String conversion EmptyString))
    else Raise (ValueError ("Unknown conversion specifier \x"
                            ++ Str.hex (N.of_nat n))).

(** [build_string] one level down, for a format specification that holds
    replacement fields of its own. *)
Variable expand : string -> result string.

(** [output_markup] *)
Definition output_markup (field_name : string) (conversion : ascii)
  (format_spec : string) (needs_expanding : bool) : result string :=
  fieldobj <- get_field_object field_name ;;
  fieldobj <- (if Ascii.eqb conversion zero then Ok fieldobj
               else do_conversion fieldobj conversion) ;;
  actual_format_spec <- (if needs_expanding then expand format_spec
                         else Ok format_spec) ;;
  py_format fieldobj actual_format_spec.

(** [do_markup]: the loop over what the iterator yields; [writer] is the
    text written so far. *)
Fixpoint do_markup (items : list markup) (writer : string) : result string :=
  match items with
  | [] => Ok writer
  | LiteralText c :: rest => do_markup rest (Str.snoc writer c)
  | Field field_name conversion format_spec needs_expanding :: rest =>
      text <- output_markup field_name conversion format_spec
                needs_expanding ;;
      do_markup rest (writer ++ text)
  | SyntaxError msg :: _ => Raise (ValueError msg)
  end.

End BuildString.

Section Format.

Context {OM : ObjectModel}.

(** [build_string]: fields nested in format specifications are expanded
    one level deep. *)
Fixpoint build_string (kwargs : Dict) (recursion_depth : nat) (input : string)
  : result string :=
  match recursion_depth with
  | O => Raise (ValueError "Max string recursion exceeded")
  | S depth =>
      do_markup kwargs (build_string kwargs depth)
        (markup_iterator Literal input) EmptyString
  end.

(** [template.format( **kwargs )] *)
Definition format (template : string) (kwargs : Dict) : result string :=
  build_string kwargs 2 template.

End Format.

(** The names the replacement fields of a template look up: of each field,
    the part of its name before the first ['.'] or ['[']. *)
Definition placeholder_name (m : markup) : list string :=
  match m with
  | Field field_name _ _ _ => [fst (field_name_split field_name)]
  | _ => []
  end.

Definition placeholders (template : string) : list string :=
  flat_map placeholder_name (markup_iterator Literal template).


End Format.

(* ================================================================== *)
(** * [HTTPResource._interpolate] *)

Section Comprehensions.

Context {A B : Type}.
Variable f : A -> result B.

(** [[f(x) for x in xs]]: left to right, the first exception ends it. *)
Fixpoint list_comprehension (xs : list A) : result (list B) :=
  match xs with
  | [] => Ok []
  | x :: rest =>
      y <- f x ;;
      ys <- list_comprehension rest ;;
      Ok (y :: ys)
  end.

End Comprehensions.

Section DictComprehension.

Variable key_of : string -> result string.
Variable value_of : Tree -> result Tree.

(** [{key_of(k): value_of(v) for k, v in items}], adding to [acc]: for each
    item the key is evaluated, then the value (the order of Python 3.8 and
    later), then the pair is stored. *)
Fixpoint dict_comprehension (items : Dict) (acc : Dict) : result Dict :=
  match items with
  | [] => Ok acc
  | kv :: rest =>
      k <- key_of (fst kv) ;;
      v <- value_of (snd kv) ;;
      dict_comprehension rest (PyDict.set k v acc)
  end.

End DictComprehension.

Section Interpolate.

Context {OM : Format.ObjectModel}.

Fixpoint _interpolate (data : Tree) (values : Dict) : result Tree :=
  match data with
  | TStr s => s' <- Format.format s values ;; Ok (TStr s')
  | TList items =>
      items' <- list_comprehension (fun x => _interpolate x values) items ;;
      Ok (TList items')
  | TDict entries =>
      entries' <- dict_comprehension
                    (fun k => Format.format k values)
                    (fun v => _interpolate v values) entries [] ;;
      Ok (TDict entries')
  | _ => Ok data
  end.

End Interpolate.

(* ================================================================== *)
(** * [json.dumps(obj, ensure_ascii=False)] *)

Module Json.

Definition dquote : string := String (ascii_of_nat 34) EmptyString.
Definition backslash : string := String (ascii_of_nat 92) EmptyString.

(** [ESCAPE_DCT] of [json.encoder]: the quote, the backslash and the
    control characters below 32. *)
Definition escape_char (c : ascii) : string :=
  let n := nat_of_ascii c in
  if Nat.eqb n 34 then backslash ++ dquote
  else if Nat.eqb n 92 then backslash ++ backslash
  else if Nat.eqb n 8 then backslash ++ "b"
  else if Nat.eqb n 12 then backslash ++ "f"
  else if Nat.eqb n 10 then backslash ++ "n"
  else if Nat.eqb n 13 then backslash ++ "r"
  else if Nat.eqb n 9 then backslash ++ "t"
  else if (n <? 16)%nat then backslash ++ "u000" ++ Str.hex (N.of_nat n)
  else if (n <? 32)%nat then backslash ++ "u00" ++ Str.hex (N.of_nat n)
  else String c EmptyString.

Fixpoint escape (s : string) : string :=
  match s with
  | EmptyString => EmptyString
  | String c rest => escape_char c ++ escape rest
  end.

(** [encode_basestring]: characters of code 128 and above stay as they
    are. *)
Definition encode_basestring (s : string) : string :=
  dquote ++ escape s ++ dquote.

Definition floatstr (x : spec_float) (repr : string) : string :=
  match x with
  | S754_nan => "NaN"
  | S754_infinity false => "Infinity"
  | S754_infinity true => "-Infinity"
  | _ => repr
  end.

Fixpoint dumps (obj : Tree) : string :=
  match obj with
  | TStr s => encode_basestring s
  | TNone => "null"
  | TBool true => "true"
  | TBool false => "false"
  | TInt n => Str.of_Z n
  | TFloat x repr => floatstr x repr
  | TList items => "[" ++ Str.join ", " (map dumps items) ++ "]"
  | TDict entries =>
      "{" ++ Str.join ", "
               (map (fun kv => encode_basestring (fst kv) ++ ": "
                               ++ dumps (snd kv)) entries)
          ++ "}"
  end.

End Json.

(* ================================================================== *)
(** * Truth values, membership *)

(** [bool(obj)] *)
Definition truthy (obj : Tree) : bool :=
  match obj with
  | TStr s => negb (String.eqb s "")
  | TList items => negb (Nat.eqb (List.length items) 0)
  | TDict entries => negb (Nat.eqb (List.length entries) 0)
  | TInt n => negb (Z.eqb n 0)
  | TFloat (S754_zero _) _ => false
  | TFloat _ _ => true
  | TBool b => b
  | TNone => false
  end.

(** [x == n] for a float [x] and an integer [n]: exact, no rounding. *)
Definition float_eq_int (x : spec_float) (n : Z) : bool :=
  match x with
  | S754_zero _ => Z.eqb n 0
  | S754_finite s m e =>
      let sign := if s then (-1)%Z else 1%Z in
      if (0 <=? e)%Z then Z.eqb n (sign * (Z.pos m * 2 ^ e))
      else Z.eqb (Z.pos m mod 2 ^ (- e)) 0
           && Z.eqb n (sign * (Z.pos m / 2 ^ (- e)))
  | _ => false
  end.

(** [obj == n] for an integer [n] *)
Definition eq_int (n : Z) (obj : Tree) : bool :=
  match obj with
  | TInt m => Z.eqb n m
  | TBool b => Z.eqb n (if b then 1 else 0)
  | TFloat x _ => float_eq_int x n
  | _ => false
  end.

(** [n in container] for an integer [n] *)
Definition contains (container : Tree) (n : Z) : result bool :=
  match container with
  | TList items => Ok (existsb (eq_int n) items)
  | TDict _ => Ok false
  | TStr _ =>
      Raise (TypeError "'in <string>' requires string as left operand, not int")
  | _ => Raise (TypeError "argument is not iterable")
  end.

(** [data[key]] *)
Definition getitem (key : string) (data : Dict) : result Tree :=
  match PyDict.get key data with
  | Some v => Ok v
  | None => Raise (KeyError key)
  end.

(** [obj.items()] *)
Definition items (obj : Tree) : result Dict :=
  match obj with
  | TDict entries => Ok entries
  | _ => Raise (AttributeError "object has no attribute 'items'")
  end.

(* ================================================================== *)
(** * The HTTP request and its effects *)

(** The arguments of [requests.request]. *)
Record Request : Type := mkRequest {
  method : Tree;
  url : Tree;
  json : Tree;
  data : option (list (string * string));
  headers : Tree;
  verify : Tree
}.

Record Response : Type := mkResponse {
  status_code : Z;
  text : string
}.

(** The body [requests] sends ([PreparedRequest.prepare_body]): the JSON
    document only when [data] is empty or missing and [json] is not [None];
    otherwise [data], form-encoded, when it is not empty. *)
Inductive Body : Type :=
| NoBody
| JsonBody (payload : Tree)
| FormBody (fields : list (string * string)).

Definition prepare_body (r : Request) : Body :=
  match r.(data) with
  | Some (field :: fields) => FormBody (field :: fields)
  | _ =>
      match r.(json) with
      | TNone => NoBody
      | payload => JsonBody payload
      end
  end.

(** A temporary file made by [tempfile.NamedTemporaryFile(delete=False)]:
    its name starts with the prefix. *)
Record TempFile : Type := mkTempFile {
  prefix : string;
  written : string
}.

(** What a run leaves behind: the temporary files it made and the calls of
    [requests.request] it made, each with its arguments, oldest first.  One
    call is one entry, also when the library follows a redirect and puts
    more than one HTTP request on the wire for it. *)
Record World : Type := mkWorld {
  temp_files : list TempFile;
  requests_sent : list Request
}.

Definition IO (A : Type) : Type := World -> result A * World.

Definition io_ret {A} (a : A) : IO A := fun w => (Ok a, w).

Definition io_raise {A} (e : exn) : IO A := fun w => (Raise e, w).

Definition io_bind {A B} (m : IO A) (k : A -> IO B) : IO B :=
  fun w =>
    match m w with
    | (Ok a, w') => k a w'
    | (Raise e, w') => (Raise e, w')
    end.

Definition lift {A} (r : result A) : IO A := fun w => (r, w).

Notation "x <~ m ;; k" := (io_bind m (fun x => k))
  (at level 61, m at next level, right associativity).

(** [tempfile.NamedTemporaryFile(delete=False, prefix=prefix)]: a new empty
    file; the result is its place in [temp_files]. *)
Definition NamedTemporaryFile (prefix : string) : IO nat :=
  fun w =>
    (Ok (List.length w.(temp_files)),
     mkWorld (w.(temp_files) ++ [mkTempFile prefix ""]) w.(requests_sent)).

(** [f.write(value)] on a file opened in binary mode, as these are: no
    value of a parameter tree is bytes-like. *)
Definition tmp_write (f : nat) (value : Tree) : IO Z :=
  io_raise (TypeError "a bytes-like object is required").

(** Reading a local variable: [None] is a variable that is not bound. *)
Definition read_local (name : string) (value : option Tree) : IO Tree :=
  match value with
  | Some v => io_ret v
  | None => io_raise (UnboundLocalError name)
  end.

(* ================================================================== *)
(** * [HTTPResource.cmd] *)

Section Cmd.

(** The remote end: what [requests.request] returns or raises for a
    request, after any redirects the library follows. *)
Variable server : Request -> result Response.

Definition requests_request (r : Request) : IO Response :=
  fun w => (server r, mkWorld w.(temp_files) (w.(requests_sent) ++ [r])).

Definition cmd (arg : list string) (data : Dict) : IO (Z * string) :=
  let method := PyDict.get_default "method" (TStr "GET") data in
  uri <~ lift (getitem "uri" data) ;;
  let headers := PyDict.get_default "headers" (TDict []) data in
  let json_data := PyDict.get_default "json" TNone data in
  let ssl_verify := PyDict.get_default "ssl_verify" (TBool true) data in
  let ok_responses :=
    PyDict.get_default "ok_responses"
      (TList [TInt 200; TInt 201; TInt 202; TInt 204]) data in
  let form_data := PyDict.get_default "form_data" TNone data in
  verify <~ match ssl_verify with
            | TBool _ => io_ret (Some ssl_verify)
            | TStr _ =>
                f <~ NamedTemporaryFile "ssl-" ;;
                value <~ read_local "verify" None ;;
                n <~ tmp_write f value ;;
                io_ret (Some (TStr (Str.of_Z n)))
            | _ => io_ret None
            end ;;
  request_data <~ (if truthy form_data then
                     fields <~ lift (items form_data) ;;
                     io_ret (Some (map (fun kv => (fst kv, Json.dumps (snd kv)))
                                     fields))
                   else io_ret None) ;;
  verify <~ read_local "verify" verify ;;
  response <~ requests_request
                (mkRequest method uri json_data request_data headers verify) ;;
  accepted <~ lift (contains ok_responses response.(status_code)) ;;
  if negb accepted then
    io_raise (PlainException ("Unexpected response "
                              ++ Str.of_Z response.(status_code)))
  else io_ret (response.(status_code), response.(text)).

End Cmd.

(* ================================================================== *)
(** * Rendering of scalars

    An object model for the values a parameter tree holds, covering a
    scalar rendered with an empty format specification ([str(obj)]) and the
    conversion [!s]; what it leaves out (accessors, [!r], [!a], non-empty
    format specifications, containers) raises [OtherError] with the class
    name [NotModelled]. *)

Definition not_modelled {A} (what : string) : result A :=
  Raise (OtherError "NotModelled" what).

Definition scalar_str (obj : Tree) : result string :=
  match obj with
  | TStr s => Ok s
  | TInt n => Ok (Str.of_Z n)
  | TBool true => Ok "True"
  | TBool false => Ok "False"
  | TNone => Ok "None"
  | TFloat S754_nan _ => Ok "nan"
  | TFloat (S754_infinity false) _ => Ok "inf"
  | TFloat (S754_infinity true) _ => Ok "-inf"
  | TFloat _ repr => Ok repr
  | TList _ | TDict _ => not_modelled "str of a container"
  end.

#[export] Instance ScalarObjects : Format.ObjectModel := {|
  Format.object := Tree;
  Format.of_tree := fun t => t;
  Format.get_rest := fun obj rest =>
    if String.eqb rest "" then Ok obj else not_modelled "accessor";
  Format.py_repr := fun _ => not_modelled "repr";
  Format.py_str := fun obj => s <- scalar_str obj ;; Ok (TStr s);
  Format.py_ascii := fun _ => not_modelled "ascii";
  Format.py_format := fun obj spec =>
    if String.eqb spec "" then scalar_str obj
    else not_modelled "format specification"
|}.

(* ================================================================== *)
(** * Vocabulary of the properties *)

(** The exception [resolve_path] raises for a path outside the bound. *)
Definition TraversalError : exn :=
  PlainException "Can not traverse outside of working directory".


(** A component as [OsPath.components] yields them. *)
Definition clean_component (c : string) : Prop :=
  Str.mem "/" c = false /\ c <> "" /\ c <> ".".

(** The exception [cmd] raises for a status that is not accepted. *)
Definition InvocationError (status : Z) : exn :=
  PlainException ("Unexpected response " ++ Str.of_Z status).

(** The fields [cmd] encodes for [data=]: each value of a non-empty
    [form_data] mapping as JSON text. *)
Definition encode_fields (fields : Dict) : list (string * string) :=
  map (fun kv => (fst kv, Json.dumps (snd kv))) fields.

(** The request [cmd] sends for [data], when it gets as far as sending one:
    [uri] is there, [ssl_verify] is a boolean, and [form_data] is a mapping
    or false. *)
Definition request_of (data : Dict) : option Request :=
  match PyDict.get "uri" data with
  | None => None
  | Some uri =>
      match PyDict.get_default "ssl_verify" (TBool true) data with
      | TBool b =>
          let form_data := PyDict.get_default "form_data" TNone data in
          let request_with fields :=
            mkRequest (PyDict.get_default "method" (TStr "GET") data) uri
              (PyDict.get_default "json" TNone data) fields
              (PyDict.get_default "headers" (TDict []) data) (TBool b) in
          if truthy form_data then
            match form_data with
            | TDict fields => Some (request_with (Some (encode_fields fields)))
            | _ => None
            end
          else Some (request_with None)
      | _ => None
      end
  end.

(** The last step of [cmd]: the status is looked up in [ok_responses]. *)
Definition check_status (ok_responses : Tree) (response : Response)
  : result (Z * string) :=
  accepted <- contains ok_responses response.(status_code) ;;
  if negb accepted then Raise (InvocationError response.(status_code))
  else Ok (response.(status_code), response.(text)).

(** The statuses accepted when [ok_responses] is not given. *)
Definition default_ok_statuses : list Z := [200; 201; 202; 204]%Z.

(** The strings of a tree: its string leaves and its mapping keys. *)
Fixpoint tree_strings (t : Tree) : list string :=
  match t with
  | TStr s => [s]
  | TList items => flat_map tree_strings items
  | TDict entries =>
      flat_map (fun kv => fst kv :: tree_strings (snd kv)) entries
  | _ => []
  end.

(** A string without a brace holds neither a replacement field nor an
    escaped brace. *)
Definition brace_free (s : string) : Prop :=
  Str.mem "{" s = false /\ Str.mem "}" s = false.

(** No string of the tree holds a brace. *)
Definition brace_free_tree (t : Tree) : Prop :=
  Forall brace_free (tree_strings t).

(** No string of the tree holds a replacement field. *)
Definition placeholder_free (t : Tree) : Prop :=
  Forall (fun s => Format.placeholders s = []) (tree_strings t).


Section FirstError.

Context {OM : Format.ObjectModel}.

(** The exception of the first string of a list that does not format. *)
Fixpoint first_error (values : Dict) (strings : list string) : option exn :=
  match strings with
  | [] => None
  | s :: rest =>
      match Format.format s values with
      | Raise e => Some e
      | Ok _ => first_error values rest
      end
  end.

End FirstError.

(** [dict(pairs)]: the mapping built from pairs in order; of two pairs with
    one key the later gives the value, the earlier the place. *)
Definition store (acc : Dict) (kv : string * Tree) : Dict :=
  PyDict.set (fst kv) (snd kv) acc.

Definition dict_of (pairs : Dict) : Dict := fold_left store pairs [].

(** [shape rekey t t']: [t'] has the structure of [t].  A string stands
    where a string stood; a sequence has the same length and its elements
    correspond in order; a scalar that is not a string is the same scalar.
    A mapping keeps its keys and their order, its values corresponding; when
    [rekey] holds it may instead be the mapping built from as many pairs,
    in order, with new keys and corresponding values. *)
Inductive shape (rekey : bool) : Tree -> Tree -> Prop :=
| shape_str s s' : shape rekey (TStr s) (TStr s')
| shape_list items items' :
    Forall2 (shape rekey) items items' ->
    shape rekey (TList items) (TList items')
| shape_dict entries entries' :
    Forall2 (fun kv kv' => fst kv = fst kv' /\ shape rekey (snd kv) (snd kv'))
      entries entries' ->
    shape rekey (TDict entries) (TDict entries')
| shape_rekeyed entries pairs :
    rekey = true ->
    Forall2 (fun kv kv' => shape rekey (snd kv) (snd kv')) entries pairs ->
    shape rekey (TDict entries) (TDict (dict_of pairs))
| shape_int n : shape rekey (TInt n) (TInt n)
| shape_float x repr : shape rekey (TFloat x repr) (TFloat x repr)
| shape_bool b : shape rekey (TBool b) (TBool b)
| shape_none : shape rekey TNone TNone.

(* ================================================================== *)
(** * The environment of the repository's tests *)

(** The filesystem of the repository's tests: [data/id.txt] and
    [data/padded.txt] under the resource directory, and a file that cannot
    be read. *)
Definition test_fs : filesystem :=
  fun p =>
    if String.eqb p "/opt/resource-tests/data/id.txt"
    then Some (RegularFile (Ok "aebe128"))
    else if String.eqb p "/opt/resource-tests/data/padded.txt"
    then Some (RegularFile (Ok "  cafe430  "))
    else if String.eqb p "/opt/resource-tests/data/locked.txt"
    then Some (RegularFile (Raise (OSError "Permission denied")))
    else if String.eqb p "/opt/resource-tests/data"
    then Some Directory
    else if String.eqb p "/opt/resource-tests"
    then Some Directory
    else None.

(** A server that answers every request with one status and body. *)
Definition answering (status : Z) (body : string) : Request -> result Response :=
  fun _ => Ok (mkResponse status body).

Definition empty_world : World := mkWorld [] [].

(** The parameters of [test_out_failure]. *)
Definition status_404_params : Dict :=
  [("uri", TStr "http://httpbin/status/404")].

(** Parameters with both a JSON body and form fields. *)
Definition json_and_form_params : Dict :=
  [("uri", TStr "http://httpbin/post"); ("method", TStr "POST");
   ("json", TDict [("test", TInt 123)]);
   ("form_data", TDict [("field", TDict [("test", TInt 123)])])].

(** Parameters with certificate text for [ssl_verify]. *)
Definition inline_certificate_params : Dict :=
  [("uri", TStr "https://internal/api");
   ("ssl_verify", TStr "-----BEGIN CERTIFICATE-----")].

(** The values of the repository's interpolation test. *)
Definition build_values : Dict := [("BUILD_NAME", TStr "1")].

(** Parameters without a brace in any string. *)
Definition plain_params : Tree :=
  TDict [("uri", TStr "http://httpbin/post");
         ("json", TDict [("test", TInt 123)]);
         ("array", TList [TStr "x"; TBool true; TNone])].


(** The parameters of [test_interpolation]. *)
Definition interpolation_params : Tree :=
  TDict [("uri", TStr "http://httpbin/post"); ("method", TStr "POST");
         ("json", TDict [("object", TDict [("test", TStr "{BUILD_NAME}")]);
                         ("array", TList [TStr "{BUILD_NAME}"])])].

(* ================================================================== *)
(** * [json.dumps(obj)], with [ensure_ascii] at its default *)

Module JsonAscii.

(** [ESCAPE_ASCII] of [json.encoder]: as [Json.escape_char], and every
    character outside the range from space to tilde as a [\u] escape. *)
Definition escape_char (c : ascii) : string :=
  let n := nat_of_ascii c in
  if Nat.eqb n 34 then Json.backslash ++ Json.dquote
  else if Nat.eqb n 92 then Json.backslash ++ Json.backslash
  else if Nat.eqb n 8 then Json.backslash ++ "b"
  else if Nat.eqb n 12 then Json.backslash ++ "f"
  else if Nat.eqb n 10 then Json.backslash ++ "n"
  else if Nat.eqb n 13 then Json.backslash ++ "r"
  else if Nat.eqb n 9 then Json.backslash ++ "t"
  else if (n <? 16)%nat then Json.backslash ++ "u000" ++ Str.hex (N.of_nat n)
  else if ((n <? 32) || (126 <? n))%nat
  then Json.backslash ++ "u00" ++ Str.hex (N.of_nat n)
  else String c EmptyString.

Fixpoint escape (s : string) : string :=
  match s with
  | EmptyString => EmptyString
  | String c rest => escape_char c ++ escape rest
  end.

Definition encode_basestring (s : string) : string :=
  Json.dquote ++ escape s ++ Json.dquote.

Fixpoint dumps (obj : Tree) : string :=
  match obj with
  | TStr s => encode_basestring s
  | TNone => "null"
  | TBool true => "true"
  | TBool false => "false"
  | TInt n => Str.of_Z n
  | TFloat x repr => Json.floatstr x repr
  | TList items => "[" ++ Str.join ", " (map dumps items) ++ "]"
  | TDict entries =>
      "{" ++ Str.join ", "
               (map (fun kv => encode_basestring (fst kv) ++ ": "
                               ++ dumps (snd kv)) entries)
          ++ "}"
  end.

End JsonAscii.

(* ================================================================== *)
(** * [HTTPResource.run] *)

(** [type(obj).__name__] *)
Definition type_name (obj : Tree) : string :=
  match obj with
  | TStr _ => "str"
  | TList _ => "list"
  | TDict _ => "dict"
  | TInt _ => "int"
  | TFloat _ _ => "float"
  | TBool _ => "bool"
  | TNone => "NoneType"
  end.

Definition no_attribute {A} (obj : Tree) (attr : string) : result A :=
  Raise (AttributeError ("'" ++ type_name obj ++ "' object has no attribute '"
                         ++ attr ++ "'")).

(** [obj.get(key, default)]: only a mapping has [get]. *)
Definition py_get (obj : Tree) (key : string) (default : Tree) : result Tree :=
  match obj with
  | TDict entries => Ok (PyDict.get_default key default entries)
  | _ => no_attribute obj "get"
  end.

(** [f.write(bytes(text, 'utf-8'))] on the temporary file at place [f]. *)
Fixpoint write_at (f : nat) (text : string) (files : list TempFile)
  : list TempFile :=
  match files, f with
  | [], _ => []
  | file :: rest, O => mkTempFile file.(prefix) (file.(written) ++ text) :: rest
  | file :: rest, S f' => file :: write_at f' text rest
  end.

Definition write_bytes (f : nat) (text : string) : IO unit :=
  fun w => (Ok tt, mkWorld (write_at f text w.(temp_files)) w.(requests_sent)).

(** [os.environ]: the variables of the process, each name once. *)
Definition Environ : Type := list (string * string).

Fixpoint environ_get (key : string) (environ : Environ) : option string :=
  match environ with
  | [] => None
  | (k, v) :: rest => if String.eqb key k then Some v else environ_get key rest
  end.

(** [os.environ.get(key, False)] as a condition: the variable is set and
    not empty. *)
Definition environ_flag (key : string) (environ : Environ) : bool :=
  match environ_get key environ with
  | Some v => negb (String.eqb v "")
  | None => false
  end.

(** [{k: v for k, v in os.environ.items()
      if k.startswith('BUILD_') or k == 'ATC_EXTERNAL_URL'}] *)
Definition concourse_variable (k : string) : bool :=
  Str.startswith k "BUILD_" || String.eqb k "ATC_EXTERNAL_URL".

Definition environment_values (environ : Environ) : Dict :=
  fold_left (fun acc kv =>
               if concourse_variable (fst kv)
               then PyDict.set (fst kv) (TStr (snd kv)) acc
               else acc)
    environ [].

Section Run.

Context {OM : Format.ObjectModel}.

(** [json.loads] *)
Variable json_loads : string -> result Tree.

(** What [dict.update] does with an argument that is not a mapping (it
    takes an iterable of pairs, and raises for anything else). *)
Variable update_from_iterable : Dict -> Tree -> result Dict.

Variable environ : Environ.
Variable fs : filesystem.
Variable cwd : string.
Variable server : Request -> result Response.

(** [target.update(other)]: only a mapping has [update]; the pairs of a
    mapping are stored in their order. *)
Definition py_update (target other : Tree) : result Dict :=
  match target with
  | TDict entries =>
      match other with
      | TDict pairs => Ok (fold_left store pairs entries)
      | _ => update_from_iterable entries other
      end
  | _ => no_attribute target "update"
  end.

(** [command_argument[0]] *)
Definition first_argument (command_argument : list string) : result string :=
  match command_argument with
  | [] => Raise (IndexError "list index out of range")
  | a :: _ => Ok a
  end.

(** [self.cmd(arg, data)] for the value [data]: [cmd] starts with
    [data.get]. *)
Definition cmd_on (arg : list string) (data : Tree) : IO (Z * string) :=
  match data with
  | TDict entries => cmd server arg entries
  | _ => lift (no_attribute data "get")
  end.

(** What logging writes is left out: of the log file only its creation is
    recorded. *)
Definition run (command_name json_data : string)
  (command_argument : list string) : IO string :=
  f <~ NamedTemporaryFile (command_name ++ "-") ;;
  _ <~ write_bytes f json_data ;;
  data <~ lift (json_loads json_data) ;;
  resource_dir <~ lift (first_argument command_argument) ;;
  debug <~ (if environ_flag "RESOURCE_DEBUG" environ then io_ret true
            else
              source <~ lift (py_get data "source" (TDict [])) ;;
              flag <~ lift (py_get source "debug" (TBool false)) ;;
              io_ret (truthy flag)) ;;
  _ <~ (if debug then io_ret 0%nat else NamedTemporaryFile "log") ;;
  let values := environment_values environ in
  params <~ lift (py_get data "source" (TDict [])) ;;
  extra <~ lift (py_get data "params" (TDict [])) ;;
  params <~ lift (py_update params extra) ;;
  let values := fold_left store params values in
  rendered_params <~ lift (_interpolate (TDict params) values) ;;
  let rendered_params :=
    _inject_file_contents fs cwd rendered_params resource_dir in
  status_text <~ cmd_on command_argument rendered_params ;;
  let text := snd status_text in
  let response := TDict [("version", TDict [])] in
  response <~ (if environ_flag "TEST" environ then
                 body <~ lift (json_loads text) ;;
                 updated <~ lift (py_update response body) ;;
                 io_ret (TDict updated)
               else io_ret response) ;;
  io_ret (JsonAscii.dumps response).

End Run.

(** The text of [{"version": {}}]. *)
Definition empty_version : string :=
  "{" ++ Json.dquote ++ "version" ++ Json.dquote ++ ": {}}".

(** The input of [test_out_failure], as text and as [json.loads] reads
    it. *)
Definition status_404_input : string :=
  "{" ++ Json.dquote ++ "source" ++ Json.dquote ++ ": {" ++ Json.dquote
  ++ "uri" ++ Json.dquote ++ ": " ++ Json.dquote
  ++ "http://httpbin/status/404" ++ Json.dquote ++ "}}".

Definition status_404_data : Tree :=
  TDict [("source", TDict status_404_params)].

(** [json.loads] on the texts of the tests. *)
Definition test_loads (s : string) : result Tree :=
  if String.eqb s status_404_input then Ok status_404_data
  else if String.eqb s "{}" then Ok (TDict [])
  else Raise (ValueError "Expecting value").

(** An update from an iterable of pairs is outside what is modelled. *)
Definition no_iterable_update (target : Dict) (other : Tree) : result Dict :=
  not_modelled "update from an iterable of pairs".

(** The environment of a build. *)
Definition build_environ : Environ :=
  [("HOME", "/root"); ("BUILD_NAME", "1"); ("BUILD_ID", "42");
   ("ATC_EXTERNAL_URL", "https://ci.example")].

(** The blocks of [run], for its properties. *)
Section RunBlocks.

Context {OM : Format.ObjectModel}.
Variable json_loads : string -> result Tree.
Variable update_from_iterable : Dict -> Tree -> result Dict.
Variable environ : Environ.
Variable fs : filesystem.
Variable cwd : string.

(** Whether debugging is on: the condition of the [if] of [run]. *)
Definition run_debug (data : Tree) : result bool :=
  if environ_flag "RESOURCE_DEBUG" environ then Ok true
  else
    source <- py_get data "source" (TDict []) ;;
    flag <- py_get source "debug" (TBool false) ;;
    Ok (truthy flag).

(** The parameters [run] merges: [source], updated with [params]. *)
Definition run_params (data : Tree) : result Dict :=
  params <- py_get data "source" (TDict []) ;;
  extra <- py_get data "params" (TDict []) ;;
  py_update update_from_iterable params extra.

(** The values [run] interpolates with. *)
Definition run_values (params : Dict) : Dict :=
  fold_left store params (environment_values environ).

(** The parameters [run] hands to [cmd]. *)
Definition run_rendered (data : Tree) (resource_dir : string) : result Tree :=
  params <- run_params data ;;
  rendered <- _interpolate (TDict params) (run_values params) ;;
  Ok (_inject_file_contents fs cwd rendered resource_dir).

(** What [run] returns once [cmd] has returned the body [text]. *)
Definition run_output (text : string) : result string :=
  if environ_flag "TEST" environ then
    body <- json_loads text ;;
    updated <- py_update update_from_iterable
                 (TDict [("version", TDict [])]) body ;;
    Ok (JsonAscii.dumps (TDict updated))
  else Ok (JsonAscii.dumps (TDict [("version", TDict [])])).

End RunBlocks.

(** A component that names an entry: clean, and not [..]. *)
Definition plain_component (c : string) : Prop :=
  clean_component c /\ c <> "..".

(** Every character of a string satisfies a test. *)
Fixpoint all_chars (p : ascii -> bool) (s : string) : bool :=
  match s with
  | EmptyString => true
  | String c rest => p c && all_chars p rest
  end.

(** A string with no whitespace at either end. *)
Definition trimmed (s : string) : Prop :=
  (forall c rest, s = String c rest -> Str.isspace c = false)
  /\ (forall front c, s = front ++ String c "" -> Str.isspace c = false).

(** A string with every brace doubled: the way to write literal braces in
    a template. *)
Fixpoint double_braces (s : string) : string :=
  match s with
  | EmptyString => EmptyString
  | String c rest =>
      if Ascii.eqb c "{" || Ascii.eqb c "}"
      then String c (String c (double_braces rest))
      else String c (double_braces rest)
  end.

(** A character [json.dumps] writes as it is when [ensure_ascii] is off:
    not a control character, not the quote, not the backslash. *)
Definition json_plain (c : ascii) : bool :=
  let n := nat_of_ascii c in
  ((32 <=? n) && negb (n =? 34) && negb (n =? 92))%nat.

(** Where a path leads from the working directory [cwd]: the components of
    its normalized join onto [cwd], as [os.path.abspath] computes it. *)
Definition located (cwd p : string) : list string :=
  OsPath.components (OsPath.normpath (OsPath.join cwd p)).


(* ================================================================== *)
(** * Properties of [FileReference] *)

Lemma startswith_cons (c : ascii) (pre value : string) :
  Str.startswith value (String c pre) = true ->
  exists rest, value = String c rest /\ Str.startswith rest pre = true.
Proof.
  destruct value as [|d rest]; simpl; [discriminate|].
  intros H. apply andb_true_iff in H as [Hc H].
  apply Ascii.eqb_eq in Hc as ->. now exists rest.
Qed.

(** C5.  A value that begins with ["-@"] parses to a reference with
    [strip = true] and the value without its first two characters as path; a
    value that begins with ["@"] parses to [strip = false] and the value
    without its first character; any other value is not a reference:
    [parse] raises [Unparseable], which file injection takes as "leave the
    string as it is". *)
Theorem parse_sentinel_prefixes :
  forall (value : string) (bounding_path : option string),
    (Str.startswith value "-@" = true ->
     FileRef.parse value bounding_path
     = Ok (mkFileReference (Str.drop 2 value) true bounding_path))
    /\ (Str.startswith value "@" = true ->
        FileRef.parse value bounding_path
        = Ok (mkFileReference (Str.drop 1 value) false bounding_path))
    /\ (Str.startswith value "@" = false ->
        Str.startswith value "-@" = false ->
        FileRef.parse value bounding_path = Raise (Unparseable value)
        /\ forall fs cwd bound,
             _inject_file_contents fs cwd (TStr value) bound = TStr value).
Proof.
  intros value bounding_path. repeat split.
  - intros H. apply startswith_cons in H as (rest & -> & H).
    apply startswith_cons in H as (rest' & -> & _).
    reflexivity.
  - intros H. unfold FileRef.parse. now rewrite H.
  - unfold FileRef.parse. now rewrite H, H0.
  - intros fs cwd b. simpl. unfold inject_str, FileRef.parse.
    now rewrite H, H0.
Qed.

Lemma parse_sentinel_prefixes_witness :
  FileRef.parse "-@data/padded.txt" None
  = Ok (mkFileReference "data/padded.txt" true None)
  /\ FileRef.parse "@data/id.txt" None
     = Ok (mkFileReference "data/id.txt" false None)
  /\ FileRef.parse "aebe128" None = Raise (Unparseable "aebe128").
Proof.
  split; [|split].
  - exact (proj1 (parse_sentinel_prefixes "-@data/padded.txt" None) eq_refl).
  - exact (proj1 (proj2 (parse_sentinel_prefixes "@data/id.txt" None)) eq_refl).
  - exact (proj1 (proj2 (proj2 (parse_sentinel_prefixes "aebe128" None))
                    eq_refl eq_refl)).
Defined.

(** A sibling directory whose name extends the bound's is outside it too:
    the common path is taken by components. *)
Example resolve_path_sibling_directory :
  forall fs : filesystem,
    FileRef.resolve_path fs "/" (mkFileReference "../resource2/key" false None)
      (Some "/opt/resource")
    = Raise TraversalError.
Proof. intros fs. reflexivity. Qed.

(** Inside the bound the filesystem decides. *)
Example resolve_path_inside_bound :
  forall fs : filesystem,
    FileRef.resolve_path fs "/" (mkFileReference "data/../data/id.txt" false None)
      (Some "/opt/resource")
    = if negb (path_exists fs "/opt/resource/data/id.txt")
         || negb (path_isfile fs "/opt/resource/data/id.txt")
      then Raise (PlainException
                    "Path `/opt/resource/data/id.txt` not found or is not a file")
      else Ok "/opt/resource/data/id.txt".
Proof. intros fs. reflexivity. Qed.

(* ================================================================== *)
(** * What the traversal check admits *)

Lemma split_not_nil (sep : ascii) (s : string) : Str.split sep s <> [].
Proof.
  destruct s as [|c s]; simpl; [discriminate|].
  destruct (Ascii.eqb c sep); [discriminate|].
  destruct (Str.split sep s); discriminate.
Qed.


Lemma split_app_sep (p s : string) :
  Str.mem "/" p = false ->
  Str.split "/" (p ++ String "/" s) = p :: Str.split "/" s.
Proof.
  induction p as [|c p IH]; intros H.
  - reflexivity.
  - cbn [Str.mem] in H. apply orb_false_iff in H as [Hc Hp].
    rewrite Ascii.eqb_sym in Hc.
    cbn [append Str.split]. rewrite Hc, (IH Hp). reflexivity.
Qed.

Lemma split_slash_free_piece (p : string) :
  Str.mem "/" p = false -> Str.split "/" p = [p].
Proof.
  induction p as [|c p IH]; intros H; [reflexivity|].
  cbn [Str.mem] in H. apply orb_false_iff in H as [Hc Hp].
  rewrite Ascii.eqb_sym in Hc.
  cbn [Str.split]. rewrite Hc, (IH Hp). reflexivity.
Qed.

Lemma split_join (l : list string) :
  Forall (fun p => Str.mem "/" p = false) l -> l <> [] ->
  Str.split "/" (Str.join "/" l) = l.
Proof.
  induction 1 as [|p l Hp Hl IH]; intros Hne; [contradiction|].
  destruct l as [|q l].
  - simpl. now apply split_slash_free_piece.
  - change (Str.join "/" (p :: q :: l)) with (p ++ String "/" (Str.join "/" (q :: l))).
    rewrite (split_app_sep _ _ Hp), IH; [reflexivity|discriminate].
Qed.


Lemma filter_clean (l : list string) :
  Forall clean_component l ->
  filter (fun c => negb (String.eqb c "") && negb (String.eqb c ".")) l = l.
Proof.
  induction 1 as [|c l (_ & H1 & H2) _ IH]; simpl; [reflexivity|].
  apply String.eqb_neq in H1, H2. rewrite H1, H2, IH. reflexivity.
Qed.

(** The components of a path written from clean components are those
    components. *)
Lemma components_join (absolute : bool) (l : list string) :
  Forall clean_component l ->
  OsPath.components ((if absolute then OsPath.sep else "") ++ Str.join "/" l)
  = l.
Proof.
  intros Hl. unfold OsPath.components.
  assert (Hfree : Forall (fun p => Str.mem "/" p = false) l)
    by (eapply Forall_impl; [|exact Hl]; now intros c []).
  destruct l as [|p l].
  - destruct absolute; reflexivity.
  - rewrite <- (filter_clean _ Hl) at 2.
    destruct absolute.
    + change (OsPath.sep ++ ?s) with (String "/" s).
      cbn [Str.split]. rewrite Ascii.eqb_refl.
      rewrite split_join by (auto; discriminate). reflexivity.
    + change ("" ++ ?s) with s.
      rewrite split_join by (auto; discriminate). reflexivity.
Qed.








(** A bound written with a trailing separator is never its own common
    path: every reference is refused. *)
Example resolve_path_trailing_separator :
  forall fs : filesystem,
    FileRef.resolve_path fs "/" (mkFileReference "data/id.txt" false None)
      (Some "/opt/resource-tests/")
    = Raise TraversalError.
Proof. intros fs. reflexivity. Qed.

(* ================================================================== *)
(** * Properties of file injection *)




(** Each way a reference fails leaves the string as it is: a path outside
    the bound, a missing file, a directory, an empty path. *)
Example inject_failures :
  map (fun s => _inject_file_contents test_fs "/" (TStr s) "/opt/resource-tests")
    ["@../etc/passwd"; "@data/none.txt"; "@data"; "-@"; "@data/id.txt"]
  = [TStr "@../etc/passwd"; TStr "@data/none.txt"; TStr "@data"; TStr "-@";
     TStr "aebe128"].
Proof. reflexivity. Qed.

(* ================================================================== *)
(** * Properties of [cmd] *)

Lemma io_bind_lift_ok {A B} (a : A) (k : A -> IO B) (w : World) :
  io_bind (lift (Ok a)) k w = k a w.
Proof. reflexivity. Qed.

Lemma io_bind_ret {A B} (a : A) (k : A -> IO B) (w : World) :
  io_bind (io_ret a) k w = k a w.
Proof. reflexivity. Qed.

(** When [cmd] sends a request, it sends [request_of data], once, and
    returns what the status check makes of the answer. *)
Lemma cmd_sends_request_of server arg (data : Dict) (req : Request) (w : World) :
  request_of data = Some req ->
  cmd server arg data w
  = (match server req with
     | Ok response =>
         check_status
           (PyDict.get_default "ok_responses"
              (TList [TInt 200; TInt 201; TInt 202; TInt 204]) data) response
     | Raise e => Raise e
     end,
     mkWorld w.(temp_files) (w.(requests_sent) ++ [req])).
Proof.
  unfold request_of, cmd, getitem, check_status, InvocationError, encode_fields.
  destruct (PyDict.get "uri" data) as [uri|]; [|discriminate].
  destruct (PyDict.get_default "ssl_verify" (TBool true) data)
    as [| | | | |b|]; try discriminate.
  set (ok := PyDict.get_default "ok_responses" _ data).
  destruct (truthy (PyDict.get_default "form_data" TNone data)) eqn:Htruthy;
    [destruct (PyDict.get_default "form_data" TNone data)
       as [| |fields| | | |]; try discriminate|];
    intros [= <-];
    cbv [io_bind lift io_ret read_local requests_request items io_raise];
    (destruct (server _) as [response|e]; [|reflexivity]);
    (destruct (contains ok (status_code response)) as [accepted|e];
       [|reflexivity]);
    now destruct accepted.
Qed.

Lemma get_set_same (key : string) (value : Tree) (d : Dict) :
  PyDict.get key (PyDict.set key value d) = Some value.
Proof.
  induction d as [|[k v] d IH]; simpl.
  - now rewrite String.eqb_refl.
  - destruct (String.eqb key k) eqn:E; simpl; rewrite E; [reflexivity|exact IH].
Qed.

Lemma get_set_other (key key' : string) (value : Tree) (d : Dict) :
  key <> key' ->
  PyDict.get key (PyDict.set key' value d) = PyDict.get key d.
Proof.
  intros Hneq. induction d as [|[k v] d IH]; simpl.
  - apply String.eqb_neq in Hneq. now rewrite Hneq.
  - destruct (String.eqb key' k) eqn:E; simpl.
    + apply String.eqb_eq in E as <-.
      apply String.eqb_neq in Hneq. now rewrite Hneq.
    + now rewrite IH.
Qed.

Lemma get_remove_same (key : string) (d : Dict) :
  PyDict.get key (PyDict.remove key d) = None.
Proof.
  induction d as [|[k v] d IH]; simpl; [reflexivity|].
  destruct (String.eqb key k) eqn:E; simpl; [exact IH|now rewrite E].
Qed.

Lemma get_remove_other (key key' : string) (d : Dict) :
  key <> key' ->
  PyDict.get key (PyDict.remove key' d) = PyDict.get key d.
Proof.
  intros Hneq. induction d as [|[k v] d IH]; simpl; [reflexivity|].
  destruct (String.eqb key' k) eqn:E; simpl.
  - apply String.eqb_eq in E as <-.
    apply String.eqb_neq in Hneq. now rewrite Hneq.
  - now rewrite IH.
Qed.

Lemma get_default_set_other (key key' : string) (default value : Tree) (d : Dict) :
  key <> key' ->
  PyDict.get_default key default (PyDict.set key' value d)
  = PyDict.get_default key default d.
Proof. intros H. unfold PyDict.get_default. now rewrite get_set_other. Qed.

Lemma get_default_remove_other (key key' : string) (default : Tree) (d : Dict) :
  key <> key' ->
  PyDict.get_default key default (PyDict.remove key' d)
  = PyDict.get_default key default d.
Proof. intros H. unfold PyDict.get_default. now rewrite get_remove_other. Qed.

(** [request_of] does not read [ok_responses]. *)
Lemma request_of_set_ok_responses (ok : Tree) (data : Dict) :
  request_of (PyDict.set "ok_responses" ok data) = request_of data.
Proof.
  unfold request_of.
  rewrite get_set_other by discriminate.
  now rewrite !get_default_set_other by discriminate.
Qed.

(** C7.  When [ok_responses] is not given, [cmd] returns the status and the
    body for the statuses 200, 201, 202 and 204 and raises the invocation
    error carrying the status for every other one, 404 among them; the same
    parameters with [ok_responses] set to [[404]] make a 404 answer succeed
    with the status and the body. *)
Theorem cmd_ok_responses :
  forall (server : Request -> result Response) (arg : list string)
         (data : Dict) (w : World) (req : Request) (response : Response),
    request_of data = Some req ->
    server req = Ok response ->
    PyDict.get "ok_responses" data = None ->
    fst (cmd server arg data w)
    = (if existsb (Z.eqb response.(status_code)) default_ok_statuses
       then Ok (response.(status_code), response.(text))
       else Raise (InvocationError response.(status_code)))
    /\ (response.(status_code) = 404%Z ->
        fst (cmd server arg data w) = Raise (InvocationError 404)
        /\ fst (cmd server arg
                  (PyDict.set "ok_responses" (TList [TInt 404]) data) w)
           = Ok (404%Z, response.(text))).
Proof.
  intros server arg data w req response Hreq Hanswer Hdefault.
  assert (Hcmd : fst (cmd server arg data w)
                 = if existsb (Z.eqb response.(status_code)) default_ok_statuses
                   then Ok (response.(status_code), response.(text))
                   else Raise (InvocationError response.(status_code))).
  { rewrite (cmd_sends_request_of _ _ _ _ _ Hreq), Hanswer. cbn [fst].
    unfold PyDict.get_default. rewrite Hdefault.
    unfold check_status, contains, default_ok_statuses. cbn [bind existsb eq_int].
    now destruct (_ || _). }
  split; [exact Hcmd|].
  intros H404. split.
  - rewrite Hcmd, H404. reflexivity.
  - rewrite <- (request_of_set_ok_responses (TList [TInt 404])) in Hreq.
    rewrite (cmd_sends_request_of _ _ _ _ _ Hreq), Hanswer. cbn [fst].
    unfold PyDict.get_default. rewrite get_set_same.
    unfold check_status, contains. rewrite H404. reflexivity.
Qed.

Lemma cmd_ok_responses_witness :
  request_of status_404_params
  = Some (mkRequest (TStr "GET") (TStr "http://httpbin/status/404") TNone None
            (TDict []) (TBool true))
  /\ fst (cmd (answering 404 "NOT FOUND") [] status_404_params empty_world)
     = Raise (InvocationError 404)
  /\ fst (cmd (answering 404 "NOT FOUND") []
            (PyDict.set "ok_responses" (TList [TInt 404]) status_404_params)
            empty_world)
     = Ok (404%Z, "NOT FOUND").
Proof.
  split; [reflexivity|].
  exact (proj2 (cmd_ok_responses (answering 404 "NOT FOUND") []
                  status_404_params empty_world _ (mkResponse 404 "NOT FOUND")
                  eq_refl eq_refl eq_refl) eq_refl).
Defined.

(** Of a mapping with an empty [form_data] and of the mapping without it,
    [cmd] makes the same request. *)
Lemma request_of_empty_form_data (data : Dict) :
  PyDict.get "form_data" data = Some (TDict []) ->
  request_of data = request_of (PyDict.remove "form_data" data).
Proof.
  intros Hform. unfold request_of.
  rewrite get_remove_other by discriminate.
  rewrite (get_default_remove_other "ssl_verify") by discriminate.
  rewrite (get_default_remove_other "method") by discriminate.
  rewrite (get_default_remove_other "json") by discriminate.
  rewrite (get_default_remove_other "headers") by discriminate.
  assert (E1 : PyDict.get_default "form_data" TNone data = TDict [])
    by (unfold PyDict.get_default; now rewrite Hform).
  assert (E2 : PyDict.get_default "form_data" TNone
                 (PyDict.remove "form_data" data) = TNone)
    by (unfold PyDict.get_default; now rewrite get_remove_same).
  rewrite E1, E2. reflexivity.
Qed.

(** C10.  With [form_data] present and an empty mapping, [cmd] does what it
    does without [form_data]: the same result and the same effects.  When
    it gets as far as the call ([uri] is there and [ssl_verify] is a
    boolean), the one request it makes carries no form fields, and the body
    sent is the JSON body when there is one and no body otherwise. *)
Theorem cmd_empty_form_data_as_absent :
  forall (server : Request -> result Response) (arg : list string)
         (params : Dict) (w : World),
    PyDict.get "form_data" params = Some (TDict []) ->
    cmd server arg params w
    = cmd server arg (PyDict.remove "form_data" params) w
    /\ forall (uri : Tree) (b : bool),
         PyDict.get "uri" params = Some uri ->
         PyDict.get_default "ssl_verify" (TBool true) params = TBool b ->
         let req :=
           mkRequest (PyDict.get_default "method" (TStr "GET") params) uri
             (PyDict.get_default "json" TNone params) None
             (PyDict.get_default "headers" (TDict []) params) (TBool b) in
         requests_sent (snd (cmd server arg params w))
         = (w.(requests_sent) ++ [req])%list
         /\ prepare_body req
            = match PyDict.get_default "json" TNone params with
              | TNone => NoBody
              | payload => JsonBody payload
              end.
Proof.
  intros server arg params w Hform.
  assert (E1 : PyDict.get_default "form_data" TNone params = TDict [])
    by (unfold PyDict.get_default; now rewrite Hform).
  assert (E2 : PyDict.get_default "form_data" TNone
                 (PyDict.remove "form_data" params) = TNone)
    by (unfold PyDict.get_default; now rewrite get_remove_same).
  split.
  - unfold cmd, getitem.
    rewrite get_remove_other by discriminate.
    rewrite (get_default_remove_other "ssl_verify") by discriminate.
    rewrite (get_default_remove_other "method") by discriminate.
    rewrite (get_default_remove_other "json") by discriminate.
    rewrite (get_default_remove_other "headers") by discriminate.
    rewrite (get_default_remove_other "ok_responses") by discriminate.
    rewrite E1, E2. reflexivity.
  - intros uri b Huri Hssl req.
    assert (Hreq : request_of params = Some req).
    { unfold request_of. rewrite Huri, Hssl, E1. reflexivity. }
    split.
    + now rewrite (cmd_sends_request_of server arg params req w Hreq).
    + reflexivity.
Qed.

Lemma cmd_empty_form_data_as_absent_witness :
  PyDict.get "form_data"
    [("uri", TStr "http://httpbin/post"); ("json", TDict [("test", TInt 123)]);
     ("form_data", TDict [])] = Some (TDict [])
  /\ cmd (answering 200 "{}") []
       [("uri", TStr "http://httpbin/post"); ("json", TDict [("test", TInt 123)]);
        ("form_data", TDict [])] empty_world
     = cmd (answering 200 "{}") []
         (PyDict.remove "form_data"
            [("uri", TStr "http://httpbin/post");
             ("json", TDict [("test", TInt 123)]); ("form_data", TDict [])])
         empty_world
  /\ requests_sent
       (snd (cmd (answering 200 "{}") []
               [("uri", TStr "http://httpbin/post");
                ("json", TDict [("test", TInt 123)]); ("form_data", TDict [])]
               empty_world))
     = [mkRequest (TStr "GET") (TStr "http://httpbin/post")
          (TDict [("test", TInt 123)]) None (TDict []) (TBool true)]
  /\ prepare_body
       (mkRequest (TStr "GET") (TStr "http://httpbin/post")
          (TDict [("test", TInt 123)]) None (TDict []) (TBool true))
     = JsonBody (TDict [("test", TInt 123)]).
Proof.
  split; [reflexivity|].
  split.
  - exact (proj1 (cmd_empty_form_data_as_absent (answering 200 "{}") []
                    [("uri", TStr "http://httpbin/post");
                     ("json", TDict [("test", TInt 123)]);
                     ("form_data", TDict [])] empty_world eq_refl)).
  - exact (proj2 (cmd_empty_form_data_as_absent (answering 200 "{}") []
                    [("uri", TStr "http://httpbin/post");
                     ("json", TDict [("test", TInt 123)]);
                     ("form_data", TDict [])] empty_world eq_refl)
             (TStr "http://httpbin/post") true eq_refl eq_refl).
Defined.

(** C3, as the code has it.  With a JSON body and a non-empty [form_data]
    mapping, [cmd] hands both to [requests.request]: [json] is the JSON
    body and [data] the form fields, each value encoded as JSON text.  The
    body [requests] then sends is the form-encoded one; the JSON body is
    not sent. *)
Theorem cmd_form_data_takes_precedence :
  forall (params : Dict) (json_data field : Tree) (key : string)
         (fields : Dict) (req : Request),
    PyDict.get "json" params = Some json_data ->
    PyDict.get "form_data" params = Some (TDict ((key, field) :: fields)) ->
    request_of params = Some req ->
    req.(json) = json_data
    /\ req.(data) = Some (encode_fields ((key, field) :: fields))
    /\ prepare_body req = FormBody (encode_fields ((key, field) :: fields))
    /\ forall server arg w,
         requests_sent (snd (cmd server arg params w))
         = (w.(requests_sent) ++ [req])%list.
Proof.
  intros params json_data field key fields req Hjson Hform Hreq.
  assert (Hsent : forall server arg w,
             requests_sent (snd (cmd server arg params w))
             = (w.(requests_sent) ++ [req])%list)
    by (intros; now rewrite (cmd_sends_request_of _ _ _ _ _ Hreq)).
  revert Hreq. unfold request_of.
  destruct (PyDict.get "uri" params) as [uri|]; [|discriminate].
  destruct (PyDict.get_default "ssl_verify" (TBool true) params);
    try discriminate.
  unfold PyDict.get_default. rewrite Hjson, Hform.
  cbn [truthy List.length Nat.eqb negb].
  intros [= <-]. cbn [data json]. repeat split. exact Hsent.
Qed.

Lemma cmd_form_data_takes_precedence_witness :
  request_of json_and_form_params
  = Some (mkRequest (TStr "POST") (TStr "http://httpbin/post")
            (TDict [("test", TInt 123)])
            (Some (encode_fields [("field", TDict [("test", TInt 123)])]))
            (TDict []) (TBool true))
  /\ prepare_body
       (mkRequest (TStr "POST") (TStr "http://httpbin/post")
          (TDict [("test", TInt 123)])
          (Some (encode_fields [("field", TDict [("test", TInt 123)])]))
          (TDict []) (TBool true))
     = FormBody (encode_fields [("field", TDict [("test", TInt 123)])]).
Proof.
  split; [reflexivity|].
  exact (proj1 (proj2 (proj2
           (cmd_form_data_takes_precedence json_and_form_params
              (TDict [("test", TInt 123)]) (TDict [("test", TInt 123)]) "field"
              [] _ eq_refl eq_refl eq_refl)))).
Defined.

(** C3, as stated, fails: for parameters with both a JSON body and form
    fields the one request [cmd] sends carries the form fields, not the JSON
    body. *)
Lemma cmd_json_and_form_sends_form_body :
  map prepare_body
    (requests_sent
       (snd (cmd (answering 200 "{}") [] json_and_form_params empty_world)))
  = [FormBody [("field", "{" ++ Json.dquote ++ "test" ++ Json.dquote ++ ": 123}")]]
  /\ PyDict.get "json" json_and_form_params = Some (TDict [("test", TInt 123)])
  /\ FormBody [("field", "{" ++ Json.dquote ++ "test" ++ Json.dquote ++ ": 123}")]
     <> JsonBody (TDict [("test", TInt 123)]).
Proof. split; [reflexivity|]. split; [reflexivity|discriminate]. Qed.

(** With a string for [ssl_verify], [cmd] makes an empty temporary file and
    then reads the local [verify] before it is bound: it raises
    [UnboundLocalError], writes nothing and sends no request. *)
Lemma cmd_ssl_verify_string_raises
  server arg (params : Dict) (uri : Tree) (cert : string) (w : World) :
  PyDict.get "uri" params = Some uri ->
  PyDict.get "ssl_verify" params = Some (TStr cert) ->
  cmd server arg params w
  = (Raise (UnboundLocalError "verify"),
     mkWorld (w.(temp_files) ++ [mkTempFile "ssl-" ""]) w.(requests_sent)).
Proof.
  intros Huri Hssl. unfold cmd, getitem, PyDict.get_default.
  rewrite Huri, Hssl. reflexivity.
Qed.

(** A boolean [ssl_verify] is passed on as it is. *)
Lemma cmd_ssl_verify_bool (params : Dict) (b : bool) (req : Request) :
  PyDict.get "ssl_verify" params = Some (TBool b) ->
  request_of params = Some req ->
  req.(verify) = TBool b.
Proof.
  unfold request_of, PyDict.get_default. intros ->.
  destruct (PyDict.get "uri" params); [|discriminate].
  destruct (truthy _); [destruct (match PyDict.get "form_data" params with
                                  | Some v => v | None => TNone end)|];
    try discriminate; now intros [= <-].
Qed.

(** C2 at an input: parameters whose [ssl_verify] is certificate text.  No
    request is sent, with no [verify] argument at all; the temporary file
    stays empty. *)
Theorem cmd_inline_certificate_fails :
  cmd (answering 200 "{}") [] inline_certificate_params empty_world
  = (Raise (UnboundLocalError "verify"),
     mkWorld [mkTempFile "ssl-" ""] []).
Proof. reflexivity. Qed.

(* ================================================================== *)
(** * Properties of [str.format] *)

Lemma append_snoc (w : string) (c : ascii) (s : string) :
  Str.snoc w c ++ s = w ++ String c s.
Proof.
  unfold Str.snoc. induction w as [|d w IH]; simpl; [reflexivity|].
  now rewrite IH.
Qed.

Lemma append_empty_r (w : string) : w ++ "" = w.
Proof. induction w as [|d w IH]; simpl; [reflexivity|now rewrite IH]. Qed.

Lemma brace_free_cons (c : ascii) (s : string) :
  brace_free (String c s) ->
  Ascii.eqb c "{" = false /\ Ascii.eqb c "}" = false /\ brace_free s.
Proof.
  unfold brace_free. cbn [Str.mem]. intros [H1 H2].
  apply orb_false_iff in H1 as [H1 H1'], H2 as [H2 H2'].
  rewrite Ascii.eqb_sym in H1. rewrite Ascii.eqb_sym in H2. auto.
Qed.

(** A string without braces is literal text, character by character. *)
Lemma markup_iterator_brace_free (s : string) :
  brace_free s ->
  Format.markup_iterator Format.Literal s
  = map Format.LiteralText (list_ascii_of_string s).
Proof.
  induction s as [|c s IH]; intros H; [reflexivity|].
  apply brace_free_cons in H as (H1 & H2 & H).
  cbn [Format.markup_iterator list_ascii_of_string map].
  rewrite H1, H2. now rewrite IH.
Qed.

Section FormatFacts.

Context {OM : Format.ObjectModel}.
Variable kwargs : Dict.

Lemma do_markup_literal expand (cs : list ascii) (w : string) :
  Format.do_markup kwargs expand (map Format.LiteralText cs) w
  = Ok (w ++ string_of_list_ascii cs).
Proof.
  revert w. induction cs as [|c cs IH]; intros w; simpl.
  - now rewrite append_empty_r.
  - now rewrite IH, append_snoc.
Qed.

(** Formatting a string without braces gives the string. *)
Lemma format_brace_free (s : string) :
  brace_free s -> Format.format s kwargs = Ok s.
Proof.
  intros H. unfold Format.format. cbn [Format.build_string].
  rewrite (markup_iterator_brace_free s H), do_markup_literal.
  now rewrite string_of_list_ascii_of_string.
Qed.







End FormatFacts.

(* ================================================================== *)
(** * Properties of the comprehensions *)

Lemma list_comprehension_Forall2 {A B} (f : A -> result B) (xs : list A)
  (ys : list B) :
  list_comprehension f xs = Ok ys ->
  Forall2 (fun x y => f x = Ok y) xs ys.
Proof.
  revert ys. induction xs as [|x xs IH]; intros ys; simpl.
  - intros [= <-]. constructor.
  - destruct (f x) as [y|e] eqn:Hx; cbn [bind]; [|discriminate].
    destruct (list_comprehension f xs) as [ys'|e]; cbn [bind]; [|discriminate].
    intros [= <-]. constructor; auto.
Qed.

Lemma list_comprehension_id {A} (f : A -> result A) (xs : list A) :
  Forall (fun x => f x = Ok x) xs ->
  list_comprehension f xs = Ok xs.
Proof.
  induction 1 as [|x xs Hx _ IH]; simpl; [reflexivity|].
  now rewrite Hx, IH.
Qed.

Lemma dict_comprehension_pairs key_of value_of (entries acc res : Dict) :
  dict_comprehension key_of value_of entries acc = Ok res ->
  exists pairs,
    Forall2 (fun kv kv' => key_of (fst kv) = Ok (fst kv')
                           /\ value_of (snd kv) = Ok (snd kv'))
      entries pairs
    /\ res = fold_left store pairs acc.
Proof.
  revert acc. induction entries as [|[k v] entries IH]; intros acc; simpl.
  - intros [= <-]. exists []. split; [constructor|reflexivity].
  - destruct (key_of k) as [k'|e] eqn:Hk; cbn [bind]; [|discriminate].
    destruct (value_of v) as [v'|e] eqn:Hv; cbn [bind]; [|discriminate].
    intros H. apply IH in H as (pairs & Hpairs & ->).
    exists ((k', v') :: pairs). split; [|reflexivity].
    constructor; auto.
Qed.

Lemma dict_comprehension_id key_of value_of (entries acc : Dict) :
  Forall (fun kv => key_of (fst kv) = Ok (fst kv)
                    /\ value_of (snd kv) = Ok (snd kv)) entries ->
  dict_comprehension key_of value_of entries acc
  = Ok (fold_left store entries acc).
Proof.
  intros H. revert acc.
  induction H as [|[k v] entries [Hk Hv] _ IH]; intros acc; simpl;
    [reflexivity|].
  simpl in Hk, Hv. rewrite Hk, Hv. cbn [bind]. apply IH.
Qed.

Lemma set_fresh (key : string) (value : Tree) (d : Dict) :
  ~ In key (PyDict.keys d) ->
  PyDict.set key value d = (d ++ [(key, value)])%list.
Proof.
  induction d as [|[k v] d IH]; simpl; intros Hnotin; [reflexivity|].
  destruct (String.eqb_spec key k) as [->|Hneq].
  - exfalso. apply Hnotin. now left.
  - rewrite IH; [reflexivity|]. intros Hin. apply Hnotin. now right.
Qed.

Lemma fold_store_distinct (pairs acc : Dict) :
  NoDup (PyDict.keys acc ++ PyDict.keys pairs) ->
  fold_left store pairs acc = (acc ++ pairs)%list.
Proof.
  revert acc. induction pairs as [|[k v] pairs IH]; intros acc Hnodup; simpl.
  - now rewrite app_nil_r.
  - unfold store at 2. cbn [fst snd].
    simpl in Hnodup. pose proof (NoDup_remove_2 _ _ _ Hnodup) as Hfresh.
    rewrite set_fresh by (intros Hin; apply Hfresh, in_or_app; now left).
    rewrite IH.
    + now rewrite <- app_assoc.
    + unfold PyDict.keys in *. rewrite map_app. simpl.
      now rewrite <- app_assoc.
Qed.

(** The mapping built from pairs with distinct keys is those pairs, in
    their order. *)
Lemma dict_of_distinct (pairs : Dict) :
  NoDup (PyDict.keys pairs) -> dict_of pairs = pairs.
Proof. intros H. apply (fold_store_distinct pairs []). exact H. Qed.

(* ================================================================== *)
(** * Properties of interpolation *)

Section InterpolateFacts.

Context {OM : Format.ObjectModel}.
Variable values : Dict.

Lemma first_error_app (a b : list string) :
  first_error values (a ++ b)
  = match first_error values a with
    | Some e => Some e
    | None => first_error values b
    end.
Proof.
  induction a as [|s a IH]; simpl; [reflexivity|].
  now destruct (Format.format s values).
Qed.

(** Interpolation raises the exception of the first string, in the order
    of evaluation, that does not format, and returns a tree when every
    string formats. *)
Lemma interpolate_first_error (t : Tree) :
  match first_error values (tree_strings t) with
  | Some e => _interpolate t values = Raise e
  | None => exists t', _interpolate t values = Ok t'
  end.
Proof.
  induction t as [s|items IH|entries IH|n|x repr|b|] using Tree_nested_ind;
    try (simpl; eauto; fail).
  - simpl. destruct (Format.format s values) as [s'|e]; simpl; eauto.
  - cbn [_interpolate tree_strings].
    assert (H : match first_error values (flat_map tree_strings items) with
                | Some e =>
                    list_comprehension (fun x => _interpolate x values) items
                    = Raise e
                | None =>
                    exists ys,
                      list_comprehension (fun x => _interpolate x values) items
                      = Ok ys
                end).
    { induction IH as [|x items Hx _ IHitems]; simpl; [eauto|].
      rewrite first_error_app.
      destruct (first_error values (tree_strings x)) as [e|].
      - now rewrite Hx.
      - destruct Hx as [x' ->]. cbn [bind].
        destruct (first_error values (flat_map tree_strings items)) as [e|].
        + now rewrite IHitems.
        + destruct IHitems as [ys ->]. simpl. eauto. }
    destruct (first_error values (flat_map tree_strings items)) as [e|].
    + now rewrite H.
    + destruct H as [ys ->]. simpl. eauto.
  - cbn [_interpolate tree_strings].
    set (strings := flat_map (fun kv => fst kv :: tree_strings (snd kv))).
    assert (H : forall acc,
               match first_error values (strings entries) with
               | Some e =>
                   dict_comprehension (fun k => Format.format k values)
                     (fun v => _interpolate v values) entries acc = Raise e
               | None =>
                   exists res,
                     dict_comprehension (fun k => Format.format k values)
                       (fun v => _interpolate v values) entries acc = Ok res
               end).
    { induction IH as [|[k v] entries Hv _ IHentries]; intros acc;
        [simpl; eauto|].
      cbn [strings flat_map dict_comprehension fst snd app first_error].
      destruct (Format.format k values) as [k'|e]; cbn [bind];
        [|reflexivity].
      rewrite first_error_app. cbn [snd] in Hv.
      destruct (first_error values (tree_strings v)) as [e|].
      - now rewrite Hv.
      - destruct Hv as [v' ->]. cbn [bind]. apply IHentries. }
    specialize (H []).
    destruct (first_error values (strings entries)) as [e|].
    + now rewrite H.
    + destruct H as [res ->]. simpl. eauto.
Qed.



(** Interpolation is the identity on a well-formed tree whose strings hold
    no brace. *)
Lemma interpolate_brace_free (t : Tree) :
  wf t -> brace_free_tree t -> _interpolate t values = Ok t.
Proof.
  unfold brace_free_tree.
  induction t as [s|items IH|entries IH|n|x repr|b|] using Tree_nested_ind;
    intros Hwf Hfree; try reflexivity.
  - simpl. inversion Hfree as [|? ? Hs _]; subst.
    now rewrite (format_brace_free values s Hs).
  - cbn [_interpolate]. inversion Hwf as [|? Hitems| | | | |]; subst.
    cbn [tree_strings] in Hfree. apply Forall_flat_map in Hfree.
    rewrite list_comprehension_id; [reflexivity|].
    rewrite Forall_forall in *. intros x Hx. auto.
  - cbn [_interpolate]. inversion Hwf as [| |? Hkeys Hvalues| | | |]; subst.
    cbn [tree_strings] in Hfree. apply Forall_flat_map in Hfree.
    rewrite dict_comprehension_id.
    + cbn [bind]. fold (dict_of entries). now rewrite dict_of_distinct.
    + rewrite Forall_forall in *. intros kv Hkv.
      specialize (Hfree kv Hkv). inversion Hfree as [|? ? Hk Hrest]; subst.
      split; [now apply format_brace_free|]. auto.
Qed.

End InterpolateFacts.

(** C9, as the code has it.  Interpolation returns the tree itself when no
    string of the tree, leaf or key, holds a brace (the tree being a value
    of Python: no mapping with a key twice). *)
Theorem interpolate_identity_without_braces :
  forall (OM : Format.ObjectModel) (t : Tree) (values : Dict),
    wf t -> brace_free_tree t -> _interpolate t values = Ok t.
Proof. intros OM t values. apply interpolate_brace_free. Qed.

Lemma plain_params_wf : wf plain_params.
Proof.
  unfold plain_params.
  repeat (constructor; simpl; try (intuition discriminate)).
Defined.

Lemma plain_params_brace_free : brace_free_tree plain_params.
Proof. repeat (constructor; try reflexivity). Defined.

Lemma interpolate_identity_without_braces_witness :
  wf plain_params /\ brace_free_tree plain_params
  /\ _interpolate plain_params build_values = Ok plain_params.
Proof.
  split; [exact plain_params_wf|]. split; [exact plain_params_brace_free|].
  exact (interpolate_identity_without_braces ScalarObjects plain_params
           build_values plain_params_wf plain_params_brace_free).
Defined.

(** C9, as stated, fails: a string of escaped braces holds no placeholder,
    and interpolation rewrites it. *)
Lemma interpolate_rewrites_escaped_braces :
  placeholder_free (TStr "{{x}}")
  /\ (forall (OM : Format.ObjectModel) (values : Dict),
        _interpolate (TStr "{{x}}") values = Ok (TStr "{x}"))
  /\ TStr "{x}" <> TStr "{{x}}".
Proof.
  split; [repeat constructor|]. split; [reflexivity|discriminate].
Qed.

(** A lone closing brace is no placeholder either, and does not format. *)
Example interpolate_lone_brace :
  placeholder_free (TStr "a}")
  /\ forall (OM : Format.ObjectModel) (values : Dict),
       _interpolate (TStr "a}") values
       = Raise (ValueError "Single '}' encountered in format string").
Proof. split; [repeat constructor|reflexivity]. Qed.




(** An empty or numeric name is a position among the positional arguments,
    of which there are none: it raises [IndexError], also when the values
    hold such a key. *)
Example interpolate_positional_field :
  forall OM : Format.ObjectModel,
    _interpolate (TList [TStr "{0}"]) [("0", TStr "zero")]
    = Raise (IndexError
               "Replacement index 0 out of range for positional args tuple")
    /\ _interpolate (TStr "{}") build_values
       = Raise (IndexError
                  "Replacement index 0 out of range for positional args tuple").
Proof. intros OM. split; reflexivity. Qed.

(** Two keys that interpolate to one key give one entry: the first key's
    place, the last value. *)
Example interpolate_key_collision :
  _interpolate (TDict [("{BUILD_NAME}", TInt 1); ("x", TInt 2); ("1", TInt 3)])
    build_values
  = Ok (TDict [("1", TInt 3); ("x", TInt 2)]).
Proof. reflexivity. Qed.

(** The repository's [test_interpolation]. *)
Example interpolate_build_name :
  _interpolate interpolation_params build_values
  = Ok (TDict [("uri", TStr "http://httpbin/post"); ("method", TStr "POST");
               ("json", TDict [("object", TDict [("test", TStr "1")]);
                               ("array", TList [TStr "1"])])]).
Proof. reflexivity. Qed.

(* ================================================================== *)
(** * Shape *)

Lemma shape_list_length rekey (items : list Tree) (t' : Tree) :
  shape rekey (TList items) t' ->
  exists items', t' = TList items' /\ List.length items' = List.length items.
Proof.
  inversion 1 as [|? items' Hitems| | | | | |]; subst.
  exists items'. split; [reflexivity|].
  symmetry. eapply Forall2_length, Hitems.
Qed.

Lemma shape_dict_is_dict rekey (entries : Dict) (t' : Tree) :
  shape rekey (TDict entries) t' -> exists entries', t' = TDict entries'.
Proof. inversion 1; subst; eauto. Qed.

Lemma shape_keys_kept (entries : Dict) (t' : Tree) :
  shape false (TDict entries) t' ->
  exists entries', t' = TDict entries'
                   /\ PyDict.keys entries' = PyDict.keys entries.
Proof.
  intros H. inversion H as [| |? entries' Hentries|? ? Hrekey| | | |]; subst;
    [|discriminate].
  exists entries'. split; [reflexivity|]. unfold PyDict.keys. clear H.
  induction Hentries as [|kv kv' ? ? [Hk _] _ IH]; simpl; [reflexivity|].
  now rewrite Hk, IH.
Qed.

Lemma shape_scalar_unchanged rekey (t t' : Tree) :
  shape rekey t t' ->
  match t with
  | TInt _ | TFloat _ _ | TBool _ | TNone => t' = t
  | _ => True
  end.
Proof. destruct 1; auto. Qed.

Lemma interpolate_shape {OM : Format.ObjectModel} (values : Dict) (t : Tree) :
  forall t', _interpolate t values = Ok t' -> shape true t t'.
Proof.
  induction t as [s|items IH|entries IH|n|x repr|b|] using Tree_nested_ind;
    intros t'; cbn [_interpolate];
    try (intros [= <-]; constructor; fail).
  - destruct (Format.format s values); cbn [bind]; [|discriminate].
    intros [= <-]. constructor.
  - destruct (list_comprehension _ items) as [items'|e] eqn:Hitems;
      cbn [bind]; [|discriminate].
    intros [= <-]. constructor.
    apply list_comprehension_Forall2 in Hitems.
    induction Hitems as [|x y items items' Hx _ IHitems]; constructor.
    + inversion IH; subst. auto.
    + inversion IH; subst. auto.
  - destruct (dict_comprehension _ _ entries []) as [res|e] eqn:Hres;
      cbn [bind]; [|discriminate].
    intros [= <-].
    apply dict_comprehension_pairs in Hres as (pairs & Hpairs & ->).
    apply shape_rekeyed; [reflexivity|].
    induction Hpairs as [|kv kv' entries pairs [_ Hv] _ IHpairs]; constructor.
    + inversion IH; subst. auto.
    + inversion IH; subst. auto.
Qed.

Lemma inject_shape (fs : filesystem) (cwd : string) (bounding_path : string)
  (t : Tree) :
  shape false t (_inject_file_contents fs cwd t bounding_path).
Proof.
  induction t as [s|items IH|entries IH|n|x repr|b|] using Tree_nested_ind;
    cbn [_inject_file_contents]; try (constructor; fail).
  - constructor. induction IH; simpl; constructor; auto.
  - apply shape_dict. induction IH; simpl; constructor; auto.
Qed.

(** C8.  Interpolation, when it returns a tree, and file injection keep the
    structure of the tree: a sequence becomes a sequence of the same
    length whose elements correspond in order, a mapping becomes a mapping,
    a number, a boolean or [None] is returned as it is, and a string
    becomes a string.  File injection keeps every key of a mapping in its
    place; interpolation builds the mapping from as many pairs, in order,
    as the mapping had, with rewritten keys. *)
Theorem rendering_preserves_shape :
  (forall (OM : Format.ObjectModel) (t t' : Tree) (values : Dict),
      _interpolate t values = Ok t' -> shape true t t')
  /\ (forall (fs : filesystem) (cwd : string) (t : Tree)
             (bounding_path : string),
        shape false t (_inject_file_contents fs cwd t bounding_path)).
Proof.
  split.
  - intros OM t t' values. apply interpolate_shape.
  - intros fs cwd t bounding_path. apply inject_shape.
Qed.

Lemma rendering_preserves_shape_witness :
  _interpolate interpolation_params build_values
  = Ok (TDict [("uri", TStr "http://httpbin/post"); ("method", TStr "POST");
               ("json", TDict [("object", TDict [("test", TStr "1")]);
                               ("array", TList [TStr "1"])])])
  /\ shape true interpolation_params
       (TDict [("uri", TStr "http://httpbin/post"); ("method", TStr "POST");
               ("json", TDict [("object", TDict [("test", TStr "1")]);
                               ("array", TList [TStr "1"])])])
  /\ shape false (TList [TStr "@data/id.txt"; TInt 7])
       (_inject_file_contents test_fs "/" (TList [TStr "@data/id.txt"; TInt 7])
          "/opt/resource-tests").
Proof.
  split; [reflexivity|]. split.
  - exact (proj1 rendering_preserves_shape ScalarObjects interpolation_params _
             build_values eq_refl).
  - exact (proj2 rendering_preserves_shape test_fs "/"
             (TList [TStr "@data/id.txt"; TInt 7]) "/opt/resource-tests").
Defined.

(* ================================================================== *)
(** * Further properties *)

(** [cmd] calls [requests.request] at most once: once when it returns, and
    not at all when it raises before the call.  (How many requests the
    library puts on the wire for one call, when the answer redirects, is the
    library's matter.) *)
Theorem cmd_calls_requests_at_most_once :
  forall (server : Request -> result Response) (arg : list string)
         (params : Dict) (w : World),
    exists sent,
      requests_sent (snd (cmd server arg params w))
      = (w.(requests_sent) ++ sent)%list
      /\ (List.length sent <= 1)%nat
      /\ (is_ok (fst (cmd server arg params w)) = true ->
          List.length sent = 1%nat).
Proof.
  intros server arg params w.
  destruct (request_of params) as [req|] eqn:Hreq.
  - rewrite (cmd_sends_request_of server arg params req w Hreq).
    exists [req]. cbn [snd requests_sent List.length]. auto.
  - exists []. rewrite app_nil_r. cbn [List.length].
    revert Hreq. unfold request_of, cmd, getitem. cbv zeta.
    destruct (PyDict.get "uri" params) as [uri|];
      [|intros _; cbn; split; [reflexivity|split; [lia|discriminate]]].
    destruct (PyDict.get_default "form_data" TNone params) as [s|l|d|n|x r|b|];
      destruct (PyDict.get_default "ssl_verify" (TBool true) params)
        as [cert|l'|d'|n'|x' r'|b'|];
      cbn [truthy];
      try match goal with
          | |- context [if ?c then _ else _] => destruct c
          end;
      intros Hreq; try discriminate Hreq;
      cbv [io_bind lift io_ret read_local requests_request items io_raise
           NamedTemporaryFile tmp_write snd fst requests_sent temp_files is_ok];
      (split; [reflexivity|split; [lia|discriminate]]).
Qed.

(** Interpolation raises the exception of the first string, in the order
    of evaluation (a key before its value, the elements of a sequence in
    order), that [str.format] rejects, and returns a tree when there is
    none. *)
Theorem interpolate_raises_first_error :
  forall (OM : Format.ObjectModel) (values : Dict) (t : Tree),
    match first_error values (tree_strings t) with
    | Some e => _interpolate t values = Raise e
    | None => exists t', _interpolate t values = Ok t'
    end.
Proof. intros OM values t. apply interpolate_first_error. Qed.

(** The repository's [test_params_file_inject] and
    [test_params_file_inject_trim]: the form field sent is the JSON text of
    the mapping with the file's contents. *)
Example form_data_file_injection :
  map (fun reference =>
         requests_sent
           (snd (cmd (answering 200 "{}") ["/opt/resource-tests"]
                   (match _inject_file_contents test_fs "/"
                            (TDict [("uri", TStr "http://httpbin/post");
                                    ("method", TStr "POST");
                                    ("form_data",
                                     TDict [("triggered_by",
                                             TDict [("commit_sha",
                                                     TStr reference)])])])
                            "/opt/resource-tests" with
                    | TDict entries => entries
                    | _ => []
                    end) empty_world)))
    ["@data/id.txt"; "-@data/padded.txt"]
  = [[mkRequest (TStr "POST") (TStr "http://httpbin/post") TNone
        (Some [("triggered_by",
                "{" ++ Json.dquote ++ "commit_sha" ++ Json.dquote ++ ": "
                ++ Json.dquote ++ "aebe128" ++ Json.dquote ++ "}")])
        (TDict []) (TBool true)];
     [mkRequest (TStr "POST") (TStr "http://httpbin/post") TNone
        (Some [("triggered_by",
                "{" ++ Json.dquote ++ "commit_sha" ++ Json.dquote ++ ": "
                ++ Json.dquote ++ "cafe430" ++ Json.dquote ++ "}")])
        (TDict []) (TBool true)]].
Proof. reflexivity. Qed.

(* ================================================================== *)
(** * Properties of [run] *)

(** What [cmd] leaves behind: at most one temporary file and at most one
    call of [requests.request], after those that were there; one call when
    it returns. *)
Lemma cmd_effects server arg (params : Dict) (w : World) :
  exists files sent,
    snd (cmd server arg params w)
    = mkWorld (w.(temp_files) ++ files) (w.(requests_sent) ++ sent)
    /\ (List.length files <= 1)%nat
    /\ (List.length sent <= 1)%nat
    /\ (is_ok (fst (cmd server arg params w)) = true ->
        List.length sent = 1%nat).
Proof.
  destruct (request_of params) as [req|] eqn:Hreq.
  - rewrite (cmd_sends_request_of server arg params req w Hreq).
    exists [], [req]. rewrite app_nil_r. cbn. auto.
  - revert Hreq. unfold request_of, cmd, getitem. cbv zeta.
    destruct (PyDict.get "uri" params) as [uri|];
      [|intros _; exists [], []; rewrite !app_nil_r; destruct w; cbn;
        repeat split; auto; discriminate].
    destruct (PyDict.get_default "form_data" TNone params) as [s|l|d|n|x r|b|];
      destruct (PyDict.get_default "ssl_verify" (TBool true) params)
        as [cert|l'|d'|n'|x' r'|b'|];
      cbn [truthy];
      try match goal with
          | |- context [if ?c then _ else _] => destruct c
          end;
      intros Hreq; try discriminate Hreq;
      cbv [io_bind lift io_ret read_local requests_request items io_raise
           NamedTemporaryFile tmp_write snd fst requests_sent temp_files is_ok];
      first
        [ exists [], []; rewrite !app_nil_r; destruct w; cbn;
          repeat split; auto; discriminate
        | exists [mkTempFile "ssl-" ""], []; rewrite !app_nil_r; destruct w;
          cbn; repeat split; auto; discriminate ].
Qed.

Lemma write_at_last (files : list TempFile) (p text : string) :
  write_at (List.length files) text (files ++ [mkTempFile p ""])
  = (files ++ [mkTempFile p text])%list.
Proof.
  induction files as [|file files IH]; simpl; [reflexivity|].
  now rewrite IH.
Qed.

Section RunFacts.

Context {OM : Format.ObjectModel}.
Variable json_loads : string -> result Tree.
Variable update_from_iterable : Dict -> Tree -> result Dict.
Variable environ : Environ.
Variable fs : filesystem.
Variable cwd : string.
Variable server : Request -> result Response.

(** [run], block by block: the input goes to a temporary file; parsing,
    the argument, the debug condition (then the log file) and the
    rendering may each raise; then [cmd] runs, and its body gives the
    output. *)
Lemma run_blocks (command_name json_data : string)
  (command_argument : list string) (w : World) :
  run json_loads update_from_iterable environ fs cwd server
    command_name json_data command_argument w
  = let w0 := mkWorld (w.(temp_files)
                       ++ [mkTempFile (command_name ++ "-") json_data])
                w.(requests_sent) in
    match json_loads json_data with
    | Raise e => (Raise e, w0)
    | Ok data =>
        match first_argument command_argument with
        | Raise e => (Raise e, w0)
        | Ok resource_dir =>
            match run_debug environ data with
            | Raise e => (Raise e, w0)
            | Ok debug =>
                let w1 :=
                  if debug then w0
                  else mkWorld (w0.(temp_files) ++ [mkTempFile "log" ""])
                         w0.(requests_sent) in
                match run_rendered update_from_iterable environ fs cwd data
                        resource_dir with
                | Raise e => (Raise e, w1)
                | Ok rendered =>
                    match cmd_on server command_argument rendered w1 with
                    | (Raise e, w2) => (Raise e, w2)
                    | (Ok status_text, w2) =>
                        (run_output json_loads update_from_iterable environ
                           (snd status_text), w2)
                    end
                end
            end
        end
    end.
Proof.
  unfold run, run_debug, run_rendered, run_params, run_values, run_output.
  cbv [io_bind lift io_ret NamedTemporaryFile write_bytes temp_files
       requests_sent].
  destruct w as [files sent]. rewrite write_at_last. cbv zeta.
  destruct (json_loads json_data) as [data|e]; [|reflexivity].
  destruct (first_argument command_argument) as [resource_dir|e];
    [|reflexivity].
  assert (Htail : forall w1 : World,
    match py_get data "source" (TDict []) with
    | Ok a1 =>
        match py_get data "params" (TDict []) with
        | Ok a2 =>
            match py_update update_from_iterable a1 a2 with
            | Ok a3 =>
                match _interpolate (TDict a3)
                        (fold_left store a3 (environment_values environ)) with
                | Ok a4 =>
                    let (r1, w'1) :=
                      cmd_on server command_argument
                        (_inject_file_contents fs cwd a4 resource_dir) w1 in
                    match r1 with
                    | Ok a5 =>
                        let (r2, w'2) :=
                          (if environ_flag "TEST" environ
                           then
                             fun w : World =>
                               match json_loads (snd a5) with
                               | Ok a6 =>
                                   match py_update update_from_iterable
                                           (TDict [("version", TDict [])]) a6
                                   with
                                   | Ok a7 => (Ok (TDict a7), w)
                                   | Raise e0 => (Raise e0, w)
                                   end
                               | Raise e0 => (Raise e0, w)
                               end
                           else
                             fun w : World =>
                               (Ok (TDict [("version", TDict [])]), w)) w'1 in
                        match r2 with
                        | Ok a6 => (Ok (JsonAscii.dumps a6), w'2)
                        | Raise e0 => (Raise e0, w'2)
                        end
                    | Raise e0 => (Raise e0, w'1)
                    end
                | Raise e0 => (Raise e0, w1)
                end
            | Raise e0 => (Raise e0, w1)
            end
        | Raise e0 => (Raise e0, w1)
        end
    | Raise e0 => (Raise e0, w1)
    end
    = match
        (params <-
           (params <- py_get data "source" (TDict []) ;;
            extra <- py_get data "params" (TDict []) ;;
            py_update update_from_iterable params extra) ;;
         rendered <- _interpolate (TDict params)
                       (fold_left store params (environment_values environ)) ;;
         Ok (_inject_file_contents fs cwd rendered resource_dir))
      with
      | Ok rendered =>
          let (r, w2) := cmd_on server command_argument rendered w1 in
          match r with
          | Ok status_text =>
              (if environ_flag "TEST" environ
               then
                 body <- json_loads (snd status_text) ;;
                 updated <- py_update update_from_iterable
                              (TDict [("version", TDict [])]) body ;;
                 Ok (JsonAscii.dumps (TDict updated))
               else Ok (JsonAscii.dumps (TDict [("version", TDict [])])), w2)
          | Raise e => (Raise e, w2)
          end
      | Raise e => (Raise e, w1)
      end).
  { intros w1.
    destruct (py_get data "source" (TDict [])) as [a1|e]; [|reflexivity].
    destruct (py_get data "params" (TDict [])) as [a2|e]; [|reflexivity].
    cbn [bind].
    destruct (py_update update_from_iterable a1 a2) as [a3|e]; [|reflexivity].
    cbn [bind].
    destruct (_interpolate (TDict a3) _) as [a4|e]; [|reflexivity].
    cbn [bind].
    destruct (cmd_on server command_argument _ w1) as [[st|e] w2];
      [|reflexivity].
    destruct (environ_flag "TEST" environ); [|reflexivity].
    destruct (json_loads (snd st)) as [body|e]; [|reflexivity]. cbn [bind].
    destruct (py_update update_from_iterable _ body); reflexivity. }
  destruct (environ_flag "RESOURCE_DEBUG" environ).
  - apply Htail.
  - destruct (py_get data "source" (TDict [])) as [source|e] eqn:Hsource;
      [|reflexivity].
    cbn [bind].
    destruct (py_get source "debug" (TBool false)) as [flag|e]; [|reflexivity].
    cbn [bind]. specialize (Htail
      (if truthy flag
       then mkWorld (files ++ [mkTempFile (command_name ++ "-") json_data]) sent
       else mkWorld ((files ++ [mkTempFile (command_name ++ "-") json_data])
                     ++ [mkTempFile "log" ""]) sent)).
    destruct (truthy flag); exact Htail.
Qed.

Lemma cmd_on_effects (arg : list string) (rendered : Tree) (w : World) :
  exists files sent,
    snd (cmd_on server arg rendered w)
    = mkWorld (w.(temp_files) ++ files) (w.(requests_sent) ++ sent)
    /\ (List.length files <= 1)%nat
    /\ (List.length sent <= 1)%nat
    /\ (is_ok (fst (cmd_on server arg rendered w)) = true ->
        List.length sent = 1%nat).
Proof.
  destruct rendered as [s|l|entries|n|x r|b|];
    try (exists [], []; rewrite !app_nil_r; destruct w; cbn;
         repeat split; auto; discriminate).
  apply cmd_effects.
Qed.

(** The effects of [run]: the input file, then at most a log file and a
    certificate file; at most one call of [requests.request], and one when
    [run] returns. *)
Lemma run_effects (command_name json_data : string)
  (command_argument : list string) (w : World) :
  exists files sent,
    snd (run json_loads update_from_iterable environ fs cwd server
           command_name json_data command_argument w)
    = mkWorld (w.(temp_files)
               ++ mkTempFile (command_name ++ "-") json_data :: files)
        (w.(requests_sent) ++ sent)
    /\ (List.length files <= 2)%nat
    /\ (List.length sent <= 1)%nat
    /\ (is_ok (fst (run json_loads update_from_iterable environ fs cwd server
                      command_name json_data command_argument w)) = true ->
        List.length sent = 1%nat).
Proof.
  rewrite run_blocks. cbv zeta. destruct w as [files0 sent0].
  cbn [temp_files requests_sent].
  assert (Hnone : forall (e : exn) (logs : list TempFile),
             (List.length logs <= 1)%nat ->
             exists files sent,
               snd (@Raise string e,
                    mkWorld ((files0
                              ++ [mkTempFile (command_name ++ "-") json_data])
                             ++ logs) sent0)
               = mkWorld (files0
                          ++ mkTempFile (command_name ++ "-") json_data :: files)
                   (sent0 ++ sent)
               /\ (List.length files <= 2)%nat
               /\ (List.length sent <= 1)%nat
               /\ (is_ok (fst (@Raise string e,
                               mkWorld ((files0
                                         ++ [mkTempFile (command_name ++ "-")
                                               json_data]) ++ logs) sent0))
                   = true -> List.length sent = 1%nat)).
  { intros e logs Hlogs. exists logs, []. rewrite app_nil_r, <- app_assoc.
    cbn. repeat split; auto; try lia; discriminate. }
  destruct (json_loads json_data) as [data|e];
    [|rewrite <- (app_nil_r (files0 ++ _)); apply Hnone; auto].
  destruct (first_argument command_argument) as [resource_dir|e];
    [|rewrite <- (app_nil_r (files0 ++ _)); apply Hnone; auto].
  destruct (run_debug environ data) as [debug|e];
    [|rewrite <- (app_nil_r (files0 ++ _)); apply Hnone; auto].
  set (logs := if debug then [] else [mkTempFile "log" ""]).
  assert (Hlogs : (List.length logs <= 1)%nat) by (destruct debug; cbn; auto).
  assert (Hw1 : (if debug
                 then mkWorld (files0
                               ++ [mkTempFile (command_name ++ "-") json_data])
                        sent0
                 else mkWorld ((files0
                                ++ [mkTempFile (command_name ++ "-") json_data])
                               ++ [mkTempFile "log" ""]) sent0)
                = mkWorld ((files0
                            ++ [mkTempFile (command_name ++ "-") json_data])
                           ++ logs) sent0)
    by (destruct debug; subst logs; [now rewrite app_nil_r|reflexivity]).
  rewrite Hw1. clear Hw1.
  destruct (run_rendered _ _ _ _ data resource_dir) as [rendered|e];
    [|apply Hnone; exact Hlogs].
  set (w1 := mkWorld _ sent0).
  destruct (cmd_on_effects command_argument rendered w1)
    as (files & sent & Hsnd & Hfiles & Hsent & Hok).
  destruct (cmd_on server command_argument rendered w1) as [[st|e] w2];
    cbn [fst snd] in *; subst w2 w1; cbn [temp_files requests_sent].
  - exists (logs ++ files)%list, sent.
    rewrite <- !app_assoc. cbn [app]. rewrite length_app.
    repeat split; auto; lia.
  - exists (logs ++ files)%list, sent.
    rewrite <- !app_assoc. cbn [app]. rewrite length_app.
    repeat split; auto; try lia; discriminate.
Qed.

End RunFacts.

(** [run] keeps its input: whatever happens next, the first temporary file
    it makes is named after the command and holds the input text. *)
Theorem run_keeps_input :
  forall (OM : Format.ObjectModel) json_loads update_from_iterable
         (environ : Environ) (fs : filesystem) (cwd : string)
         (server : Request -> result Response)
         (command_name json_data : string) (command_argument : list string)
         (w : World),
    exists files,
      temp_files (snd (run json_loads update_from_iterable environ fs cwd
                         server command_name json_data command_argument w))
      = (w.(temp_files)
         ++ mkTempFile (command_name ++ "-") json_data :: files)%list
      /\ (List.length files <= 2)%nat.
Proof.
  intros.
  destruct (run_effects json_loads update_from_iterable environ fs cwd server
              command_name json_data command_argument w)
    as (files & sent & Hsnd & Hfiles & _).
  exists files. now rewrite Hsnd.
Qed.

(** [run] calls [requests.request] at most once, and exactly once when it
    returns. *)
Theorem run_calls_requests_at_most_once :
  forall (OM : Format.ObjectModel) json_loads update_from_iterable
         (environ : Environ) (fs : filesystem) (cwd : string)
         (server : Request -> result Response)
         (command_name json_data : string) (command_argument : list string)
         (w : World),
    exists sent,
      requests_sent (snd (run json_loads update_from_iterable environ fs cwd
                            server command_name json_data command_argument w))
      = (w.(requests_sent) ++ sent)%list
      /\ (List.length sent <= 1)%nat
      /\ (is_ok (fst (run json_loads update_from_iterable environ fs cwd
                        server command_name json_data command_argument w))
          = true -> List.length sent = 1%nat).
Proof.
  intros.
  destruct (run_effects json_loads update_from_iterable environ fs cwd server
              command_name json_data command_argument w)
    as (files & sent & Hsnd & _ & Hsent & Hok).
  exists sent. now rewrite Hsnd.
Qed.

(** Without the [TEST] variable (or with an empty one), what [run] returns
    is the text of a mapping with an empty [version], whatever the
    response was. *)
Theorem run_returns_empty_version :
  forall (OM : Format.ObjectModel) json_loads update_from_iterable
         (environ : Environ) (fs : filesystem) (cwd : string)
         (server : Request -> result Response)
         (command_name json_data : string) (command_argument : list string)
         (w : World),
    environ_flag "TEST" environ = false ->
    is_ok (fst (run json_loads update_from_iterable environ fs cwd server
                  command_name json_data command_argument w)) = true ->
    fst (run json_loads update_from_iterable environ fs cwd server
           command_name json_data command_argument w) = Ok empty_version.
Proof.
  intros OM json_loads update_from_iterable environ fs cwd server command_name
    json_data command_argument w Htest.
  rewrite run_blocks. cbv zeta.
  destruct (json_loads json_data) as [data|e]; [|discriminate].
  destruct (first_argument command_argument) as [dir|e]; [|discriminate].
  destruct (run_debug environ data) as [debug|e]; [|discriminate].
  destruct (run_rendered _ _ _ _ data dir) as [rendered|e]; [|discriminate].
  destruct (cmd_on server command_argument rendered _) as [[st|e] w2];
    [|discriminate].
  unfold run_output. rewrite Htest. reflexivity.
Qed.

Lemma run_returns_empty_version_witness :
  environ_flag "TEST" build_environ = false
  /\ fst (run test_loads no_iterable_update build_environ test_fs "/"
            (answering 200 "hello") "out" status_404_input
            ["/opt/resource-tests"] empty_world) = Ok empty_version.
Proof.
  split; [reflexivity|].
  exact (run_returns_empty_version ScalarObjects test_loads
           no_iterable_update build_environ test_fs "/"
           (answering 200 "hello") "out" status_404_input
           ["/opt/resource-tests"] empty_world eq_refl eq_refl).
Defined.

Lemma get_fold_store (key : string) (pairs d : Dict) :
  NoDup (PyDict.keys pairs) ->
  PyDict.get key (fold_left store pairs d)
  = match PyDict.get key pairs with
    | Some v => Some v
    | None => PyDict.get key d
    end.
Proof.
  intros Hnodup. revert d.
  induction pairs as [|[k v] pairs IH]; intros d; [reflexivity|].
  inversion Hnodup as [|? ? Hk Hrest]; subst.
  cbn [fold_left]. unfold store at 2. cbn [fst snd PyDict.get].
  rewrite (IH Hrest).
  destruct (String.eqb_spec key k) as [->|Hneq].
  - assert (Hnone : PyDict.get k pairs = None).
    { clear -Hk. induction pairs as [|[k' v'] pairs IH]; [reflexivity|].
      simpl. destruct (String.eqb_spec k k') as [->|_].
      - exfalso. apply Hk. now left.
      - apply IH. intros H. apply Hk. now right. }
    rewrite Hnone. apply get_set_same.
  - destruct (PyDict.get key pairs); [reflexivity|].
    now apply get_set_other.
Qed.

Lemma environ_get_none (key : string) (environ : Environ) :
  ~ In key (map fst environ) -> environ_get key environ = None.
Proof.
  induction environ as [|[k v] environ IH]; [reflexivity|].
  simpl. intros H. destruct (String.eqb_spec key k) as [->|_].
  - exfalso. apply H. now left.
  - apply IH. intros Hin. apply H. now right.
Qed.

Lemma get_environment_values (key : string) (environ : Environ) :
  NoDup (map fst environ) ->
  PyDict.get key (environment_values environ)
  = if concourse_variable key
    then option_map TStr (environ_get key environ)
    else None.
Proof.
  intros Hnodup. unfold environment_values.
  assert (H : forall acc,
             PyDict.get key
               (fold_left (fun acc kv =>
                             if concourse_variable (fst kv)
                             then PyDict.set (fst kv) (TStr (snd kv)) acc
                             else acc) environ acc)
             = match (if concourse_variable key
                      then option_map TStr (environ_get key environ)
                      else None) with
               | Some v => Some v
               | None => PyDict.get key acc
               end).
  { induction environ as [|[k v] environ IH]; intros acc.
    - simpl. now destruct (concourse_variable key).
    - inversion Hnodup as [|? ? Hk Hrest]; subst.
      cbn [fold_left fst snd environ_get]. rewrite (IH Hrest).
      destruct (String.eqb_spec key k) as [->|Hneq].
      + rewrite (environ_get_none _ _ Hk).
        destruct (concourse_variable k); cbn [option_map]; [|reflexivity].
        apply get_set_same.
      + destruct (concourse_variable key);
          [destruct (environ_get key environ); [reflexivity|]|];
          (destruct (concourse_variable k); [now apply get_set_other|reflexivity]). }
  rewrite H. now destruct (if concourse_variable key then _ else _).
Qed.

Lemma set_keys_present (key : string) (value : Tree) (d : Dict) :
  In key (PyDict.keys d) -> PyDict.keys (PyDict.set key value d) = PyDict.keys d.
Proof.
  induction d as [|[k v] d IH]; simpl; [contradiction|].
  intros Hin. destruct (String.eqb_spec key k) as [->|Hneq]; [reflexivity|].
  simpl. rewrite IH; [reflexivity|]. destruct Hin as [->|Hin]; [easy|exact Hin].
Qed.

(** Storing a pair keeps the keys of a mapping distinct. *)
Lemma set_NoDup (key : string) (value : Tree) (d : Dict) :
  NoDup (PyDict.keys d) -> NoDup (PyDict.keys (PyDict.set key value d)).
Proof.
  intros Hnodup.
  destruct (in_dec string_dec key (PyDict.keys d)) as [Hin|Hnotin].
  - now rewrite set_keys_present.
  - rewrite (set_fresh _ _ _ Hnotin). unfold PyDict.keys in *.
    rewrite map_app. simpl. apply NoDup_app; auto.
    + repeat constructor. simpl. tauto.
    + intros k Hk [<-|[]]. contradiction.
Qed.

Lemma fold_store_NoDup (pairs d : Dict) :
  NoDup (PyDict.keys d) -> NoDup (PyDict.keys (fold_left store pairs d)).
Proof.
  revert d. induction pairs as [|kv pairs IH]; intros d Hd; [exact Hd|].
  simpl. apply IH. now apply set_NoDup.
Qed.

(** The names [run] can interpolate.  With [source] and [params] mappings
    (or left out), a name is looked up among [params], then [source], then
    the variables
    of the environment whose name starts with [BUILD_] or is
    [ATC_EXTERNAL_URL]; no other variable of the environment is seen. *)
Theorem run_values_precedence :
  forall update_from_iterable (environ : Environ) (input source params : Dict)
         (key : string),
    NoDup (map fst environ) ->
    NoDup (PyDict.keys source) ->
    NoDup (PyDict.keys params) ->
    PyDict.get_default "source" (TDict []) input = TDict source ->
    PyDict.get_default "params" (TDict []) input = TDict params ->
    exists merged,
      run_params update_from_iterable (TDict input) = Ok merged
      /\ PyDict.get key (run_values environ merged)
         = match PyDict.get key params with
           | Some v => Some v
           | None =>
               match PyDict.get key source with
               | Some v => Some v
               | None =>
                   if concourse_variable key
                   then option_map TStr (environ_get key environ)
                   else None
               end
           end.
Proof.
  intros update_from_iterable environ input source params key Henv Hsrc
    Hparams Hsource Hextra.
  exists (fold_left store params source). split.
  - unfold run_params, py_get. rewrite Hsource, Hextra. reflexivity.
  - unfold run_values.
    rewrite get_fold_store by now apply fold_store_NoDup.
    rewrite get_fold_store by assumption.
    rewrite get_environment_values by assumption.
    destruct (PyDict.get key params); [reflexivity|].
    now destruct (PyDict.get key source).
Qed.

Lemma build_environ_NoDup : NoDup (map fst build_environ).
Proof. repeat constructor; simpl; intuition discriminate. Defined.

Lemma run_values_precedence_witness :
  NoDup (map fst build_environ)
  /\ PyDict.get "BUILD_NAME"
       (run_values build_environ
          (fold_left store [("BUILD_NAME", TStr "mine")]
             [("uri", TStr "http://httpbin/{BUILD_NAME}/{BUILD_ID}")]))
     = Some (TStr "mine")
  /\ PyDict.get "HOME"
       (run_values build_environ
          (fold_left store [("BUILD_NAME", TStr "mine")]
             [("uri", TStr "http://httpbin/{BUILD_NAME}/{BUILD_ID}")]))
     = None.
Proof.
  split; [exact build_environ_NoDup|].
  assert (Hs : NoDup (PyDict.keys
                        [("uri", TStr "http://httpbin/{BUILD_NAME}/{BUILD_ID}")]))
    by (repeat constructor; simpl; tauto).
  assert (Hp : NoDup (PyDict.keys [("BUILD_NAME", TStr "mine")]))
    by (repeat constructor; simpl; tauto).
  split.
  - destruct (run_values_precedence no_iterable_update build_environ
                [("source",
                  TDict [("uri", TStr "http://httpbin/{BUILD_NAME}/{BUILD_ID}")]);
                 ("params", TDict [("BUILD_NAME", TStr "mine")])]
                _ _ "BUILD_NAME" build_environ_NoDup Hs Hp eq_refl eq_refl)
      as (merged & Hmerged & Hget).
    injection Hmerged as <-. exact Hget.
  - destruct (run_values_precedence no_iterable_update build_environ
                [("source",
                  TDict [("uri", TStr "http://httpbin/{BUILD_NAME}/{BUILD_ID}")]);
                 ("params", TDict [("BUILD_NAME", TStr "mine")])]
                _ _ "HOME" build_environ_NoDup Hs Hp eq_refl eq_refl)
      as (merged & Hmerged & Hget).
    injection Hmerged as <-. exact Hget.
Defined.

(** Input that does not parse, or no argument to take the resource
    directory from: [run] raises after writing the input file, and does
    nothing else. *)
Theorem run_rejects_early :
  forall (OM : Format.ObjectModel) json_loads update_from_iterable
         (environ : Environ) (fs : filesystem) (cwd : string)
         (server : Request -> result Response)
         (command_name json_data : string) (command_argument : list string)
         (w : World),
    let w0 := mkWorld (w.(temp_files)
                       ++ [mkTempFile (command_name ++ "-") json_data])
                w.(requests_sent) in
    (forall e, json_loads json_data = Raise e ->
       run json_loads update_from_iterable environ fs cwd server
         command_name json_data command_argument w = (Raise e, w0))
    /\ (forall data, json_loads json_data = Ok data ->
          run json_loads update_from_iterable environ fs cwd server
            command_name json_data [] w
          = (Raise (IndexError "list index out of range"), w0)).
Proof.
  intros. split.
  - intros e He. rewrite run_blocks. cbv zeta. now rewrite He.
  - intros data Hdata. rewrite run_blocks. cbv zeta. now rewrite Hdata.
Qed.

Lemma run_rejects_early_witness :
  run test_loads no_iterable_update build_environ test_fs "/"
    (answering 200 "{}") "out" "not json" ["/opt/resource-tests"] empty_world
  = (Raise (ValueError "Expecting value"),
     mkWorld [mkTempFile "out-" "not json"] [])
  /\ run test_loads no_iterable_update build_environ test_fs "/"
       (answering 200 "{}") "out" "{}" [] empty_world
     = (Raise (IndexError "list index out of range"),
        mkWorld [mkTempFile "out-" "{}"] []).
Proof.
  split.
  - exact (proj1 (run_rejects_early ScalarObjects test_loads no_iterable_update
                    build_environ test_fs "/" (answering 200 "{}") "out"
                    "not json" ["/opt/resource-tests"] empty_world)
             _ eq_refl).
  - exact (proj2 (run_rejects_early ScalarObjects test_loads no_iterable_update
                    build_environ test_fs "/" (answering 200 "{}") "out"
                    "{}" [] empty_world)
             _ eq_refl).
Defined.

(** What [cmd] refuses before sending anything: parameters without [uri]
    ([KeyError]), an [ssl_verify] that is neither a boolean nor a string
    (the local [verify] is never bound: [UnboundLocalError]), a [form_data]
    that is true and not a mapping, when [ssl_verify] is not a string
    ([AttributeError]).  The world is left as it was. *)
Theorem cmd_rejects_before_sending :
  forall (server : Request -> result Response) (arg : list string)
         (params : Dict) (w : World),
    (PyDict.get "uri" params = None ->
     cmd server arg params w = (Raise (KeyError "uri"), w))
    /\ (forall uri ssl_verify,
          PyDict.get "uri" params = Some uri ->
          PyDict.get "ssl_verify" params = Some ssl_verify ->
          match ssl_verify with TBool _ | TStr _ => False | _ => True end ->
          truthy (PyDict.get_default "form_data" TNone params) = false ->
          cmd server arg params w = (Raise (UnboundLocalError "verify"), w))
    /\ (forall uri form_data,
          PyDict.get "uri" params = Some uri ->
          match PyDict.get_default "ssl_verify" (TBool true) params with
          | TStr _ => False
          | _ => True
          end ->
          PyDict.get "form_data" params = Some form_data ->
          truthy form_data = true ->
          match form_data with TDict _ => False | _ => True end ->
          cmd server arg params w
          = (Raise (AttributeError "object has no attribute 'items'"), w)).
Proof.
  intros server arg params w. repeat split.
  - intros Huri. unfold cmd, getitem. now rewrite Huri.
  - intros uri ssl_verify Huri Hssl Hkind Hform.
    unfold cmd, getitem, PyDict.get_default in *. rewrite Huri, Hssl.
    destruct ssl_verify; try contradiction;
      cbv [io_bind lift io_ret read_local io_raise]; now rewrite Hform.
  - intros uri form_data Huri Hssl Hform Htruthy Hkind.
    assert (Hfd : PyDict.get_default "form_data" TNone params = form_data)
      by (unfold PyDict.get_default; now rewrite Hform).
    unfold cmd, getitem. rewrite Huri, Hfd.
    destruct (PyDict.get_default "ssl_verify" (TBool true) params);
      try contradiction;
      cbv [io_bind lift io_ret read_local io_raise]; rewrite Htruthy;
      now destruct form_data.
Qed.

Lemma cmd_rejects_before_sending_witness :
  cmd (answering 200 "{}") [] [("method", TStr "POST")] empty_world
  = (Raise (KeyError "uri"), empty_world)
  /\ cmd (answering 200 "{}") []
       [("uri", TStr "https://internal/api"); ("ssl_verify", TNone)] empty_world
     = (Raise (UnboundLocalError "verify"), empty_world)
  /\ cmd (answering 200 "{}") []
       [("uri", TStr "https://internal/api"); ("form_data", TStr "a=b")]
       empty_world
     = (Raise (AttributeError "object has no attribute 'items'"), empty_world).
Proof.
  split; [|split].
  - exact (proj1 (cmd_rejects_before_sending (answering 200 "{}") []
                    [("method", TStr "POST")] empty_world) eq_refl).
  - exact (proj1 (proj2 (cmd_rejects_before_sending (answering 200 "{}") []
                           [("uri", TStr "https://internal/api");
                            ("ssl_verify", TNone)] empty_world))
             _ TNone eq_refl eq_refl I eq_refl).
  - exact (proj2 (proj2 (cmd_rejects_before_sending (answering 200 "{}") []
                           [("uri", TStr "https://internal/api");
                            ("form_data", TStr "a=b")] empty_world))
             _ (TStr "a=b") eq_refl I eq_refl eq_refl I).
Defined.

(* ================================================================== *)
(** * References that resolve *)

Lemma append_assoc (a b c : string) : (a ++ b) ++ c = a ++ (b ++ c).
Proof. induction a as [|x a IH]; simpl; [reflexivity|now rewrite IH]. Qed.

Lemma rev_append_snoc (s : string) (c : ascii) (acc : string) :
  Str.rev_append (s ++ String c "") acc = String c (Str.rev_append s acc).
Proof.
  revert acc. induction s as [|d s IH]; intros acc; simpl; [reflexivity|].
  apply IH.
Qed.

Lemma rev_snoc (s : string) (c : ascii) :
  Str.rev (s ++ String c "") = String c (Str.rev s).
Proof. apply rev_append_snoc. Qed.

(** A string that ends with a character other than the separator does not
    end with the separator. *)
Lemma endswith_sep_snoc (s : string) (c : ascii) :
  Ascii.eqb c "/" = false -> Str.endswith (s ++ String c "") "/" = false.
Proof.
  intros Hc. unfold Str.endswith. rewrite rev_snoc.
  change (Str.rev "/") with "/". cbn [Str.startswith].
  rewrite Ascii.eqb_sym, Hc. reflexivity.
Qed.

Lemma clean_component_chars (c : string) :
  clean_component c ->
  exists x rest, c = String x rest /\ Ascii.eqb x "/" = false
                 /\ Str.mem "/" rest = false.
Proof.
  intros (Hfree & Hne & _). destruct c as [|x rest]; [contradiction|].
  cbn [Str.mem] in Hfree. apply orb_false_iff in Hfree as [Hx Hrest].
  rewrite Ascii.eqb_sym in Hx. eauto.
Qed.

Lemma slash_free_last (c : string) :
  c <> "" -> Str.mem "/" c = false ->
  exists s x, c = s ++ String x "" /\ Ascii.eqb x "/" = false.
Proof.
  induction c as [|y c IH]; intros Hne Hfree; [contradiction|].
  cbn [Str.mem] in Hfree. apply orb_false_iff in Hfree as [Hy Hc].
  destruct c as [|z c].
  - exists "", y. split; [reflexivity|]. now rewrite Ascii.eqb_sym.
  - destruct (IH ltac:(discriminate) Hc) as (s & x & Hs & Hx).
    exists (String y s), x. split; [|exact Hx]. simpl. now rewrite <- Hs.
Qed.

Lemma join_app (a b : list string) :
  a <> [] -> b <> [] ->
  Str.join "/" (a ++ b) = Str.join "/" a ++ "/" ++ Str.join "/" b.
Proof.
  induction a as [|x a IH]; intros Ha Hb; [contradiction|].
  destruct a as [|y a].
  - destruct b as [|z b]; [contradiction|]. reflexivity.
  - change (Str.join "/" ((x :: y :: a) ++ b))
      with (x ++ "/" ++ Str.join "/" ((y :: a) ++ b)).
    rewrite IH by (auto; discriminate).
    change (Str.join "/" (x :: y :: a)) with (x ++ "/" ++ Str.join "/" (y :: a)).
    now rewrite !append_assoc.
Qed.

(** A path written from clean components ends with a character other than
    the separator. *)
Lemma join_last (l : list string) :
  l <> [] -> Forall clean_component l ->
  exists s x, Str.join "/" l = s ++ String x "" /\ Ascii.eqb x "/" = false.
Proof.
  induction l as [|c l IH]; intros Hne Hl; [contradiction|].
  inversion Hl as [|? ? (Hfree & Hc & _) Hrest]; subst.
  destruct l as [|d l].
  - simpl. now apply slash_free_last.
  - destruct (IH ltac:(discriminate) Hrest) as (s & x & Hs & Hx).
    exists (c ++ "/" ++ s), x. split; [|exact Hx].
    change (Str.join "/" (c :: d :: l)) with (c ++ "/" ++ Str.join "/" (d :: l)).
    rewrite Hs. now rewrite !append_assoc.
Qed.

Lemma plain_clean (l : list string) :
  Forall plain_component l -> Forall clean_component l.
Proof. apply Forall_impl. now intros c []. Qed.

Lemma join_first (l : list string) :
  l <> [] -> Forall clean_component l ->
  exists x rest, Str.join "/" l = String x rest /\ Ascii.eqb x "/" = false.
Proof.
  intros Hne Hl. destruct l as [|c l]; [contradiction|].
  inversion Hl as [|? ? Hc _]; subst.
  destruct (clean_component_chars c Hc) as (x & rest & -> & Hx & _).
  destruct l; simpl; eauto.
Qed.

(** Joining a clean relative path onto a clean absolute bound gives the
    path of the components of both. *)
Lemma join_clean (bc pc : list string) :
  Forall clean_component bc -> Forall clean_component pc -> pc <> [] ->
  OsPath.join ("/" ++ Str.join "/" bc) (Str.join "/" pc)
  = "/" ++ Str.join "/" (bc ++ pc).
Proof.
  intros Hbc Hpc Hne. unfold OsPath.join, OsPath.sep.
  destruct (join_first pc Hne Hpc) as (x & rest & Hp & Hx).
  rewrite Hp. cbn [Str.startswith]. rewrite Ascii.eqb_sym, Hx. cbn [andb].
  rewrite <- Hp. cbn [String.eqb append].
  destruct bc as [|b bc].
  - reflexivity.
  - destruct (join_last (b :: bc) ltac:(discriminate) Hbc) as (s & y & Hs & Hy).
    assert (E : Str.endswith (String "/" (Str.join "/" (b :: bc))) "/" = false)
      by (rewrite Hs; apply (endswith_sep_snoc (String "/" s) y Hy)).
    rewrite E. cbn [orb].
    rewrite join_app by (auto; discriminate).
    reflexivity.
Qed.

Lemma normpath_step_plain (n : nat) (acc comps : list string) :
  Forall plain_component comps ->
  fold_left (OsPath.normpath_step n) comps acc = (acc ++ comps)%list.
Proof.
  intros H. revert acc.
  induction H as [|c comps ((_ & H1 & H2) & H3) _ IH]; intros acc; simpl.
  - now rewrite app_nil_r.
  - unfold OsPath.normpath_step at 2.
    apply String.eqb_neq in H1, H2, H3. rewrite H1, H2, H3. cbn.
    rewrite IH. now rewrite <- app_assoc.
Qed.

(** [normpath] leaves a clean absolute path as it is. *)
Lemma normpath_clean (comps : list string) :
  Forall plain_component comps ->
  OsPath.normpath ("/" ++ Str.join "/" comps) = "/" ++ Str.join "/" comps.
Proof.
  intros Hplain. pose proof (plain_clean _ Hplain) as Hclean.
  unfold OsPath.normpath, OsPath.sep. cbn [append String.eqb].
  assert (Hslashes :
            (if Str.startswith (String "/" (Str.join "/" comps)) "/"
             then if Str.startswith (String "/" (Str.join "/" comps)) "//"
                     && negb (Str.startswith (String "/" (Str.join "/" comps))
                                "///")
                  then 2%nat else 1%nat
             else 0%nat) = 1%nat).
  { destruct comps as [|c comps]; [reflexivity|].
    destruct (join_first (c :: comps) ltac:(discriminate) Hclean)
      as (x & rest & -> & Hx).
    cbn [Str.startswith]. rewrite Ascii.eqb_refl. cbn [andb].
    rewrite Ascii.eqb_sym, Hx. reflexivity. }
  rewrite Hslashes. cbn [Str.split]. rewrite Ascii.eqb_refl.
  assert (Hcomps : fold_left (OsPath.normpath_step 1)
                     ("" :: Str.split "/" (Str.join "/" comps)) []
                   = comps).
  { cbn [fold_left]. unfold OsPath.normpath_step at 2. cbn [String.eqb orb].
    destruct comps as [|c comps]; [reflexivity|].
    rewrite split_join.
    - now rewrite normpath_step_plain.
    - eapply Forall_impl; [|exact Hclean]. now intros ? [].
    - discriminate. }
  rewrite Hcomps. reflexivity.
Qed.

Lemma list_compare_refl_app (a b : list string) :
  b <> [] -> OsPath.list_compare a (a ++ b) = Lt.
Proof.
  intros Hb. induction a as [|x a IH]; simpl.
  - destruct b; [contradiction|reflexivity].
  - assert (E : String.compare x x = Eq)
      by (pose proof (String.compare_antisym x x) as H;
          destruct (String.compare x x); [reflexivity|discriminate|discriminate]).
    now rewrite E.
Qed.

Lemma common_prefix_app (a b : list string) :
  OsPath.common_prefix a (a ++ b) = Ok a.
Proof.
  induction a as [|x a IH]; simpl; [reflexivity|].
  now rewrite String.eqb_refl, IH.
Qed.

(** The common path of a clean absolute path and the bound it extends is
    the bound. *)
Lemma commonpath_clean (bc pc : list string) :
  Forall clean_component bc -> Forall clean_component pc -> pc <> [] ->
  OsPath.commonpath ["/" ++ Str.join "/" (bc ++ pc); "/" ++ Str.join "/" bc]
  = Ok ("/" ++ Str.join "/" bc).
Proof.
  intros Hbc Hpc Hne. unfold OsPath.commonpath.
  unfold OsPath.isabs, OsPath.sep.
  cbn [forallb Str.startswith append map].
  rewrite !Ascii.eqb_refl. cbn [Bool.eqb andb negb].
  pose proof (components_join true (bc ++ pc)
                (proj2 (Forall_app _ _ _) (conj Hbc Hpc))) as H1.
  pose proof (components_join true bc Hbc) as H2.
  unfold OsPath.sep in H1, H2. cbn [append] in H1, H2. rewrite H1, H2.
  unfold OsPath.list_min, OsPath.list_max. cbn [fold_left].
  rewrite (list_compare_refl_app bc pc Hne), common_prefix_app.
  reflexivity.
Qed.

(** A reference to a file under the bound resolves.  For a bound written
    [/b1/.../bn] and a reference path written [p1/.../pm], each component
    a name (neither empty, [.] nor [..]), [resolve_path] returns
    [/b1/.../bn/p1/.../pm] when that path names a regular file, and raises
    the not-found error otherwise. *)
Theorem resolve_path_clean_reference :
  forall (fs : filesystem) (cwd : string) (bc pc : list string) (strip : bool)
         (ref_bound : option string),
    Forall plain_component bc ->
    Forall plain_component pc ->
    pc <> [] ->
    FileRef.resolve_path fs cwd
      (mkFileReference (Str.join "/" pc) strip ref_bound)
      (Some ("/" ++ Str.join "/" bc))
    = if path_isfile fs ("/" ++ Str.join "/" (bc ++ pc))
      then Ok ("/" ++ Str.join "/" (bc ++ pc))
      else Raise (PlainException
                    ("Path `" ++ ("/" ++ Str.join "/" (bc ++ pc))
                     ++ "` not found or is not a file")).
Proof.
  intros fs cwd bc pc strip ref_bound Hbc Hpc Hne.
  pose proof (plain_clean _ Hbc) as Hbc'.
  pose proof (plain_clean _ Hpc) as Hpc'.
  unfold FileRef.resolve_path, FileRef.joined_path, FileRef.bound_or_cwd.
  cbn [path].
  destruct (join_first pc Hne Hpc') as (x & rest & Hp & Hx).
  rewrite Hp. cbn [FileRef.first_char bind]. rewrite Hx. rewrite <- Hp.
  rewrite (join_clean bc pc Hbc' Hpc' Hne).
  rewrite normpath_clean
    by (apply Forall_app; split; assumption).
  cbn [bind]. rewrite (commonpath_clean bc pc Hbc' Hpc' Hne). cbn [bind].
  rewrite String.eqb_refl. cbn [negb].
  unfold path_exists, path_isfile.
  destruct (fs ("/" ++ Str.join "/" (bc ++ pc))) as [[|data|]|]; reflexivity.
Qed.

Lemma resolve_path_clean_reference_witness :
  Forall plain_component ["opt"; "resource-tests"]
  /\ Forall plain_component ["data"; "id.txt"]
  /\ FileRef.resolve_path test_fs "/"
       (mkFileReference "data/id.txt" false None) (Some "/opt/resource-tests")
     = Ok "/opt/resource-tests/data/id.txt".
Proof.
  assert (H1 : Forall plain_component ["opt"; "resource-tests"])
    by (repeat constructor; discriminate).
  assert (H2 : Forall plain_component ["data"; "id.txt"])
    by (repeat constructor; discriminate).
  split; [exact H1|]. split; [exact H2|].
  exact (resolve_path_clean_reference test_fs "/" ["opt"; "resource-tests"]
           ["data"; "id.txt"] false None H1 H2 ltac:(discriminate)).
Defined.

(* ================================================================== *)
(** * Paths outside the bound *)





















(** A relative bound that climbs is not covered either.  The join of
    [../etc/passwd] onto [..] is [../../etc/passwd]; its common path with
    the bound is the bound, so the check passes and the filesystem decides,
    although from [/opt/resource] the bound leads to [/opt] and the path to
    [/etc/passwd]. *)
Example resolve_path_relative_bound_climbs :
  FileRef.joined_path (mkFileReference "../etc/passwd" false None) ".."
  = Ok "../../etc/passwd"
  /\ located "/opt/resource" ".." = ["opt"]
  /\ located "/opt/resource" "../../etc/passwd" = ["etc"; "passwd"]
  /\ forall fs : filesystem,
       FileRef.resolve_path fs "/opt/resource"
         (mkFileReference "../etc/passwd" false None) (Some "..")
       = if path_isfile fs "../../etc/passwd"
         then Ok "../../etc/passwd"
         else Raise (PlainException
                       "Path `../../etc/passwd` not found or is not a file").
Proof.
  split; [reflexivity|]. split; [reflexivity|]. split; [reflexivity|].
  intros fs. unfold FileRef.resolve_path. cbn. unfold path_exists, path_isfile.
  destruct (fs "../../etc/passwd") as [[|data|]|]; reflexivity.
Qed.

(* ================================================================== *)
(** * What injection puts in *)

Lemma append_nil_r (s : string) : s ++ "" = s.
Proof. induction s as [|c s IH]; simpl; [reflexivity|now rewrite IH]. Qed.

Lemma rev_append_rev (s acc : string) :
  Str.rev_append s acc = Str.rev s ++ acc.
Proof.
  unfold Str.rev. revert acc.
  induction s as [|c s IH]; intros acc; simpl; [reflexivity|].
  rewrite IH, (IH (String c "")), append_assoc. reflexivity.
Qed.

Lemma rev_app (a b : string) : Str.rev (a ++ b) = Str.rev b ++ Str.rev a.
Proof.
  induction a as [|c a IH]; simpl.
  - now rewrite append_nil_r.
  - unfold Str.rev in *. simpl.
    rewrite (rev_append_rev (a ++ b)), (rev_append_rev a).
    unfold Str.rev. rewrite IH, append_assoc. reflexivity.
Qed.

Lemma rev_involutive (s : string) : Str.rev (Str.rev s) = s.
Proof.
  induction s as [|c s IH]; [reflexivity|].
  change (String c s) with (String c "" ++ s) at 1.
  rewrite rev_app, rev_app, IH. reflexivity.
Qed.

Lemma all_chars_rev (p : ascii -> bool) (s : string) :
  all_chars p (Str.rev s) = all_chars p s.
Proof.
  assert (Happ : forall a b, all_chars p (a ++ b)
                             = all_chars p a && all_chars p b).
  { induction a as [|c a IH]; intros b; simpl; [reflexivity|].
    now rewrite IH, andb_assoc. }
  induction s as [|c s IH]; [reflexivity|].
  change (String c s) with (String c "" ++ s) at 1.
  rewrite rev_app, Happ, IH. simpl. now rewrite andb_true_r, andb_comm.
Qed.

(** [lstrip] takes whitespace off the front, as much as there is. *)
Lemma lstrip_spec (s : string) :
  exists front,
    all_chars Str.isspace front = true
    /\ s = front ++ Str.lstrip s
    /\ forall c rest, Str.lstrip s = String c rest -> Str.isspace c = false.
Proof.
  induction s as [|c s (front & Hfront & Hs & Hfirst)].
  - exists "". repeat split. discriminate.
  - simpl. destruct (Str.isspace c) eqn:Hc.
    + exists (String c front). simpl. rewrite Hc, Hfront.
      repeat split; [now rewrite <- Hs|exact Hfirst].
    + exists "". repeat split. now intros ? ? [= <- _].
Qed.

(** [rstrip] takes whitespace off the back, as much as there is. *)
Lemma rstrip_spec (s : string) :
  exists back,
    all_chars Str.isspace back = true
    /\ s = Str.rstrip s ++ back
    /\ forall front c, Str.rstrip s = front ++ String c "" ->
                       Str.isspace c = false.
Proof.
  unfold Str.rstrip.
  destruct (lstrip_spec (Str.rev s)) as (front & Hfront & Hs & Hfirst).
  exists (Str.rev front). split; [now rewrite all_chars_rev|]. split.
  - rewrite <- rev_app, <- Hs. now rewrite rev_involutive.
  - intros f c Hf. apply (Hfirst c (Str.rev f)).
    rewrite <- (rev_involutive (Str.lstrip (Str.rev s))), Hf.
    now rewrite rev_snoc.
Qed.

(** [strip] takes the whitespace off both ends and nothing else. *)
Lemma strip_spec (s : string) :
  exists front back,
    all_chars Str.isspace front = true
    /\ all_chars Str.isspace back = true
    /\ s = front ++ Str.strip s ++ back
    /\ trimmed (Str.strip s).
Proof.
  unfold Str.strip.
  destruct (lstrip_spec s) as (front & Hfront & Hs & Hfirst).
  destruct (rstrip_spec (Str.lstrip s)) as (back & Hback & Hl & Hlast).
  exists front, back. repeat split; auto.
  - now rewrite <- Hl.
  - intros c rest Hc. apply (Hfirst c (rest ++ back)).
    rewrite Hl, Hc. reflexivity.
Qed.


Lemma open_read_ok (fs : filesystem) (target raw : string) :
  open_read fs target = Ok raw -> fs target = Some (RegularFile (Ok raw)).
Proof.
  unfold open_read.
  destruct (fs target) as [[|data|]|]; try discriminate. now intros ->.
Qed.

(** The contents of a reference: the text of the file it resolves to, as
    it is for [@], without the whitespace at its ends for [-@]. *)
Theorem contents_verbatim_or_trimmed :
  forall (fs : filesystem) (cwd : string) (self : FileReference)
         (text : string),
    FileRef.contents fs cwd self = Ok text ->
    exists target raw,
      FileRef.resolve_path fs cwd self self.(bound) = Ok target
      /\ fs target = Some (RegularFile (Ok raw))
      /\ if self.(strip)
         then trimmed text
              /\ exists front back,
                   all_chars Str.isspace front = true
                   /\ all_chars Str.isspace back = true
                   /\ raw = front ++ text ++ back
         else text = raw.
Proof.
  intros fs cwd self text. unfold FileRef.contents, FileRef.target_path.
  destruct (FileRef.resolve_path fs cwd self (bound self)) as [target|e];
    cbn [bind]; [|discriminate].
  destruct (open_read fs target) as [raw|e] eqn:Hread; cbn [bind];
    [|discriminate].
  intros [= <-]. exists target, raw. split; [reflexivity|].
  split; [now apply open_read_ok|].
  destruct (strip self); cbn [negb]; [|reflexivity].
  destruct (strip_spec raw) as (front & back & Hf & Hb & Hraw & Htrim).
  split; [exact Htrim|]. now exists front, back.
Qed.

Lemma contents_verbatim_or_trimmed_witness :
  FileRef.contents test_fs "/"
    (mkFileReference "data/padded.txt" true (Some "/opt/resource-tests"))
  = Ok "cafe430"
  /\ exists target raw,
       FileRef.resolve_path test_fs "/"
         (mkFileReference "data/padded.txt" true (Some "/opt/resource-tests"))
         (Some "/opt/resource-tests") = Ok target
       /\ test_fs target = Some (RegularFile (Ok raw))
       /\ trimmed "cafe430"
          /\ exists front back,
               all_chars Str.isspace front = true
               /\ all_chars Str.isspace back = true
               /\ raw = front ++ "cafe430" ++ back.
Proof.
  split; [reflexivity|].
  exact (contents_verbatim_or_trimmed test_fs "/"
           (mkFileReference "data/padded.txt" true (Some "/opt/resource-tests"))
           "cafe430" eq_refl).
Defined.



(* ================================================================== *)
(** * Literal braces, plain strings *)

(** A string with its braces doubled is literal text: the characters of
    the string. *)
Lemma markup_iterator_double_braces (s : string) :
  Format.markup_iterator Format.Literal (double_braces s)
  = map Format.LiteralText (list_ascii_of_string s).
Proof.
  induction s as [|c s IH]; [reflexivity|].
  cbn [double_braces list_ascii_of_string map].
  destruct (Ascii.eqb c "{") eqn:Hopen.
  - apply Ascii.eqb_eq in Hopen as ->. cbn [orb Format.markup_iterator].
    rewrite Ascii.eqb_refl. now rewrite IH.
  - destruct (Ascii.eqb c "}") eqn:Hclose.
    + apply Ascii.eqb_eq in Hclose as ->. cbn [orb Format.markup_iterator].
      change (Ascii.eqb "}" "{") with false. cbn iota.
      rewrite Ascii.eqb_refl. now rewrite IH.
    + cbn [orb Format.markup_iterator]. rewrite Hopen, Hclose. now rewrite IH.
Qed.

(** Doubling the braces of a string is how to get it through
    interpolation: the string with doubled braces interpolates to the
    string itself, whatever the values. *)
Theorem interpolate_double_braces :
  forall (OM : Format.ObjectModel) (s : string) (values : Dict),
    _interpolate (TStr (double_braces s)) values = Ok (TStr s).
Proof.
  intros OM s values. cbn [_interpolate]. unfold Format.format.
  cbn [Format.build_string].
  rewrite markup_iterator_double_braces, do_markup_literal.
  now rewrite string_of_list_ascii_of_string.
Qed.

Lemma escape_char_plain (c : ascii) :
  json_plain c = true -> Json.escape_char c = String c "".
Proof.
  unfold json_plain, Json.escape_char.
  set (n := nat_of_ascii c). intros H.
  apply andb_true_iff in H as [H H92]. apply andb_true_iff in H as [H32 H34].
  apply negb_true_iff in H34, H92. apply Nat.leb_le in H32.
  rewrite H34, H92.
  replace (Nat.eqb n 8) with false by (symmetry; apply Nat.eqb_neq; lia).
  replace (Nat.eqb n 12) with false by (symmetry; apply Nat.eqb_neq; lia).
  replace (Nat.eqb n 10) with false by (symmetry; apply Nat.eqb_neq; lia).
  replace (Nat.eqb n 13) with false by (symmetry; apply Nat.eqb_neq; lia).
  replace (Nat.eqb n 9) with false by (symmetry; apply Nat.eqb_neq; lia).
  replace (n <? 16)%nat with false by (symmetry; apply Nat.ltb_ge; lia).
  replace (n <? 32)%nat with false by (symmetry; apply Nat.ltb_ge; lia).
  reflexivity.
Qed.

Lemma escape_plain (s : string) :
  all_chars json_plain s = true -> Json.escape s = s.
Proof.
  induction s as [|c s IH]; [reflexivity|]. simpl.
  intros H. apply andb_true_iff in H as [Hc Hs].
  now rewrite (escape_char_plain c Hc), (IH Hs).
Qed.

(** A form field whose value is a string without control characters,
    quotes or backslashes is sent as that string between quotes: characters
    outside ASCII are not escaped. *)
Theorem encode_fields_plain_string :
  forall (key s : string) (fields : Dict),
    all_chars json_plain s = true ->
    encode_fields ((key, TStr s) :: fields)
    = (key, Json.dquote ++ s ++ Json.dquote) :: encode_fields fields.
Proof.
  intros key s fields H. unfold encode_fields. cbn [map fst snd Json.dumps].
  unfold Json.encode_basestring. now rewrite (escape_plain s H).
Qed.

Lemma encode_fields_plain_string_witness :
  all_chars json_plain
    (String (ascii_of_nat 230) (String (ascii_of_nat 151)
       (String (ascii_of_nat 165) "!"))) = true
  /\ encode_fields
       [("field", TStr (String (ascii_of_nat 230) (String (ascii_of_nat 151)
                          (String (ascii_of_nat 165) "!"))))]
     = [("field", Json.dquote
                  ++ String (ascii_of_nat 230) (String (ascii_of_nat 151)
                       (String (ascii_of_nat 165) "!"))
                  ++ Json.dquote)].
Proof.
  split; [reflexivity|].
  exact (encode_fields_plain_string "field"
           (String (ascii_of_nat 230) (String (ascii_of_nat 151)
              (String (ascii_of_nat 165) "!"))) [] eq_refl).
Defined.
